(** * secops-mcp: the invocation adapters of [tools/]

    A shallow embedding of the six adapters [run_nmap], [run_sqlmap],
    [run_xsstrike], [run_hashcat], [run_subfinder] and [run_httpx], and the
    properties of their command construction, execution bound, output
    parsing, error classification and result envelopes.

    Conventions of the embedding.
    - A Python [str] is a [string] (a sequence of 8-bit characters, the
      UTF-8 bytes of the text). [strip] removes the white space characters
      of [str], those of one byte and those UTF-8 writes in two or three
      bytes; [lower] acts on the ASCII range.
    - The value handed to [json.dumps] is a [json] term; a Python dict is an
      association list in insertion order.
    - An adapter is a computation in the monad [M]: it threads the list of
      external processes launched so far and ends by returning a value, by
      raising an exception, or by never coming back ([Blocks]) when it waits
      on a process that does not exit.
    - The Python library functions [json.dumps], [json.loads] and [str] on
      an exception object are parameters of the development. *)

From Stdlib Require Import List String Ascii ZArith Lia Bool Arith DecimalString.
From Stdlib Require DecimalPos DecimalZ.
Import ListNotations.

Open Scope string_scope.
Open Scope list_scope.

(** ** Python strings *)

Module PyStr.

(** The one-character string ['\n']. *)
Definition nl_char : ascii := ascii_of_nat 10.
Definition nl : string := String nl_char EmptyString.

(** [str.lower] on one character: ['A'..'Z'] move to ['a'..'z']. *)
Definition lower_char (c : ascii) : ascii :=
  let n := nat_of_ascii c in
  if ((65 <=? n) && (n <=? 90))%nat then ascii_of_nat (n + 32) else c.

Fixpoint lower (s : string) : string :=
  match s with
  | EmptyString => EmptyString
  | String c s' => String (lower_char c) (lower s')
  end.

(** The white space characters of [str] that UTF-8 writes in one byte:
    TAB, LF, VT, FF, CR, the four separators FS GS RS US, and the space. *)
Definition is_space (c : ascii) : bool :=
  let n := nat_of_ascii c in
  (((9 <=? n) && (n <=? 13)) || ((28 <=? n) && (n <=? 32)))%nat.

(** Those written in two bytes: U+0085 (C2 85) and U+00A0 (C2 A0). *)
Definition is_space2 (c1 c2 : ascii) : bool :=
  let n1 := nat_of_ascii c1 in
  let n2 := nat_of_ascii c2 in
  ((n1 =? 194) && ((n2 =? 133) || (n2 =? 160)))%nat.

(** Those written in three bytes: U+1680 (E1 9A 80), U+2000 to U+200A
    (E2 80 80 to E2 80 8A), U+2028, U+2029 and U+202F (E2 80 A8, A9, AF),
    U+205F (E2 81 9F) and U+3000 (E3 80 80). With the two sets above these
    are all the characters for which [str.isspace] holds. *)
Definition is_space3 (c1 c2 c3 : ascii) : bool :=
  let n1 := nat_of_ascii c1 in
  let n2 := nat_of_ascii c2 in
  let n3 := nat_of_ascii c3 in
  (((n1 =? 225) && (n2 =? 154) && (n3 =? 128))
   || ((n1 =? 226) && (n2 =? 128)
       && (((128 <=? n3) && (n3 <=? 138))
           || (n3 =? 168) || (n3 =? 169) || (n3 =? 175)))
   || ((n1 =? 226) && (n2 =? 129) && (n3 =? 159))
   || ((n1 =? 227) && (n2 =? 128) && (n3 =? 128)))%nat.

(** [str.lstrip]: the white space characters at the head are removed, one
    character, of one, two or three bytes, at a time. *)
Fixpoint lstrip (s : string) : string :=
  match s with
  | EmptyString => EmptyString
  | String c1 r1 =>
      if is_space c1 then lstrip r1
      else
        match r1 with
        | EmptyString => s
        | String c2 r2 =>
            if is_space2 c1 c2 then lstrip r2
            else
              match r2 with
              | EmptyString => s
              | String c3 r3 =>
                  if is_space3 c1 c2 c3 then lstrip r3 else s
              end
        end
  end.

(** Truth value of a string: non-empty. *)
Definition truthy (s : string) : bool :=
  match s with EmptyString => false | _ => true end.

(** [str.rstrip]: the text is cut where what follows is white space only. *)
Fixpoint rstrip (s : string) : string :=
  match s with
  | EmptyString => EmptyString
  | String c s' =>
      if truthy (lstrip s) then String c (rstrip s') else EmptyString
  end.

Definition strip (s : string) : string := rstrip (lstrip s).

(** [s.split(sep)] for a one-character separator; never the empty list. *)
Fixpoint split (sep : ascii) (s : string) : list string :=
  match s with
  | EmptyString => [EmptyString]
  | String c s' =>
      if Ascii.eqb c sep then EmptyString :: split sep s'
      else match split sep s' with
           | h :: t => String c h :: t
           | [] => [String c EmptyString]
           end
  end.

(** [sep.join(l)]. *)
Definition join (sep : string) (l : list string) : string :=
  String.concat sep l.

(** [needle in hay]. *)
Fixpoint contains (needle hay : string) : bool :=
  String.prefix needle hay ||
  match hay with
  | EmptyString => false
  | String _ hay' => contains needle hay'
  end.

(** [str(n)] for integers. *)
Definition str_nat (n : nat) : string := NilZero.string_of_uint (Nat.to_uint n).
Definition str_Z (z : Z) : string := NilZero.string_of_int (Z.to_int z).

(** [x or d] where [x] is a string or [None]. *)
Definition or_else (x : option string) (d : string) : string :=
  match x with
  | Some s => if truthy s then s else d
  | None => d
  end.

End PyStr.
Import PyStr.

(** ** JSON values *)

#[local] Set Warnings "-register-all".

Inductive json : Type :=
| JNull
| JBool (b : bool)
| JInt (z : Z)
| JFloat (literal : string)
| JStr (s : string)
| JList (l : list json)
| JDict (kv : list (string * json)).

Definition JOptStr (o : option string) : json :=
  match o with Some s => JStr s | None => JNull end.

Definition JOptInt (o : option Z) : json :=
  match o with Some z => JInt z | None => JNull end.

Definition JNat (n : nat) : json := JInt (Z.of_nat n).

Definition JStrs (l : list string) : json := JList (map JStr l).

(** Field access on a decoded envelope. *)
Fixpoint assoc (k : string) (kv : list (string * json)) : option json :=
  match kv with
  | [] => None
  | (k', v) :: rest => if String.eqb k k' then Some v else assoc k rest
  end.

Definition field (k : string) (j : json) : option json :=
  match j with
  | JDict kv => assoc k kv
  | _ => None
  end.

(** ** Exceptions, processes and the adapter monad *)

(** The argument vector, standard-input payload and time limit given to
    [subprocess.run]; every adapter passes [capture_output=True],
    [text=True] and [check=True]. *)
Record ProcessSpec : Type := mkSpec {
  args : list string;
  input : option string;
  timeout : option nat
}.

Record CompletedProcess : Type := mkCompleted {
  returncode : Z;
  stdout : string;
  stderr : string
}.

(** The exception classes the adapters name, and every other subclass of
    [Exception]. *)
Inductive exn : Type :=
| CalledProcessError (rc : Z) (cmd : list string) (out err : option string)
| TimeoutExpired (cmd : list string) (limit : nat)
| FileNotFoundError (msg : string)
| JSONDecodeError (msg : string)
| OtherException (msg : string).

(** What an external process does once asked to start. *)
Inductive behaviour : Type :=
| Exits (elapsed : nat) (rc : Z) (out err : string)
| Hangs
| LaunchFails (e : exn).

Inductive outcome (A : Type) : Type :=
| Returns (a : A)
| Raises (e : exn)
| Blocks.
Arguments Returns {A} a.
Arguments Raises {A} e.
Arguments Blocks {A}.

(** The processes launched so far, oldest first. *)
Definition trace : Type := list ProcessSpec.

Definition M (A : Type) : Type := trace -> outcome A * trace.

Definition ret {A} (a : A) : M A := fun t => (Returns a, t).
Definition raise {A} (e : exn) : M A := fun t => (Raises e, t).

Definition bind {A B} (m : M A) (k : A -> M B) : M B :=
  fun t =>
    match m t with
    | (Returns a, t') => k a t'
    | (Raises e, t') => (Raises e, t')
    | (Blocks, t') => (Blocks, t')
    end.

Notation "x <- m ;; k" := (bind m (fun x => k))
  (at level 61, m at next level, right associativity).

(** [try: m  except ...: h]. The handler table [h] answers [None] for an
    exception no clause matches, which then propagates. *)
Definition try_except {A} (m : M A) (h : exn -> option (M A)) : M A :=
  fun t =>
    match m t with
    | (Raises e, t') =>
        match h e with
        | Some k => k t'
        | None => (Raises e, t')
        end
    | r => r
    end.

(** A library call that returns or raises. *)
Definition lift {A} (r : A + exn) : M A :=
  match r with
  | inl a => ret a
  | inr e => raise e
  end.

(** [subprocess.run(cmd, input=.., capture_output=True, text=True,
    check=True, timeout=..)] against an operating system [os] that fixes the
    behaviour of each process. With a limit, a process still running when it
    expires is killed and [TimeoutExpired] is raised; without one the call
    waits for the exit. A non-zero exit status raises [CalledProcessError]. *)
Definition subprocess_run (os : ProcessSpec -> behaviour) (spec : ProcessSpec)
  : M CompletedProcess :=
  fun t =>
    let t' := t ++ [spec] in
    match os spec with
    | LaunchFails e => (Raises e, t')
    | Hangs =>
        match timeout spec with
        | Some limit => (Raises (TimeoutExpired (args spec) limit), t')
        | None => (Blocks, t')
        end
    | Exits elapsed rc out err =>
        match timeout spec with
        | Some limit =>
            if (limit <? elapsed)%nat
            then (Raises (TimeoutExpired (args spec) limit), t')
            else if (rc =? 0)%Z
                 then (Returns (mkCompleted rc out err), t')
                 else (Raises (CalledProcessError rc (args spec) (Some out) (Some err)), t')
        | None =>
            if (rc =? 0)%Z
            then (Returns (mkCompleted rc out err), t')
            else (Raises (CalledProcessError rc (args spec) (Some out) (Some err)), t')
        end
    end.

(** Running an adapter from a fresh trace. *)
Definition run {A} (m : M A) : outcome A * trace := m [].
Definition answer {A} (m : M A) : outcome A := fst (run m).
Definition launched {A} (m : M A) : trace := snd (run m).

(** ** The adapters *)

Section Adapters.

(** [json.dumps(obj, indent=..)]: the envelope text. *)
Variable json_dumps : option nat -> json -> string.

(** [json.loads(line)]: the decoded record, or the exception raised
    ([JSONDecodeError] in most cases, [RecursionError] and the like in
    others). *)
Variable json_loads : string -> json + exn.

(** [str(e)] for an exception object. *)
Variable str_exc : exn -> string.

(** The operating system the adapter runs on. *)
Variable os : ProcessSpec -> behaviour.

(** The [except CalledProcessError] / [except Exception] pair shared, word
    for word, by the nmap, sqlmap, xsstrike, hashcat and subfinder
    adapters. *)
Definition plain_failure (e : exn) : json :=
  match e with
  | CalledProcessError _ _ _ err =>
      JDict [("success", JBool false);
             ("error", JStr (str_exc e));
             ("stderr", JOptStr err)]
  | _ =>
      JDict [("success", JBool false);
             ("error", JStr (str_exc e))]
  end.

Definition plain_handlers (e : exn) : option (M string) :=
  Some (ret (json_dumps None (plain_failure e))).

(** *** tools/nmap.py *)

Definition nmap_cmd (target : string) (ports scan_type : option string)
  : list string :=
  let cmd := ["nmap"; "-oX"; "-"; target] in
  let cmd := match ports with
             | Some p => if truthy p then cmd ++ ["-p"; p] else cmd
             | None => cmd
             end in
  match scan_type with
  | Some st => if truthy st then cmd ++ [("-" ++ st)%string] else cmd
  | None => cmd
  end.

Definition nmap_envelope (target : string) (ports scan_type : option string)
           (result : CompletedProcess) : json :=
  JDict [
    ("success", JBool true);
    ("target", JStr target);
    ("ports", JOptStr ports);
    ("scan_type", JOptStr scan_type);
    ("results", JDict [("xml_output", JStr (stdout result))])].

Definition run_nmap (target : string) (ports scan_type : option string)
  : M string :=
  try_except
    (let cmd := nmap_cmd target ports scan_type in
     result <- subprocess_run os (mkSpec cmd None None) ;;
     ret (json_dumps None (nmap_envelope target ports scan_type result)))
    plain_handlers.

(** *** tools/sqlmap.py *)

Definition sqlmap_cmd (url : string) (risk level : option Z) : list string :=
  let cmd := ["sqlmap"; "-u"; url; "--batch"; "--output-dir=/tmp/sqlmap"] in
  let cmd := match risk with
             | Some r => if (r =? 0)%Z then cmd else cmd ++ ["--risk"; str_Z r]
             | None => cmd
             end in
  match level with
  | Some l => if (l =? 0)%Z then cmd else cmd ++ ["--level"; str_Z l]
  | None => cmd
  end.

Definition sqlmap_envelope (url : string) (risk level : option Z)
           (result : CompletedProcess) : json :=
  JDict [
    ("success", JBool true);
    ("url", JStr url);
    ("risk", JOptInt risk);
    ("level", JOptInt level);
    ("results", JDict [("output", JStr (stdout result))])].

Definition run_sqlmap (url : string) (risk level : option Z) : M string :=
  try_except
    (let cmd := sqlmap_cmd url risk level in
     result <- subprocess_run os (mkSpec cmd None None) ;;
     ret (json_dumps None (sqlmap_envelope url risk level result)))
    plain_handlers.

(** *** tools/xsstrike.py *)

Definition xsstrike_cmd (url : string) (crawl : bool) : list string :=
  let cmd := ["xsstrike"; "-u"; url] in
  if crawl then cmd ++ ["--crawl"] else cmd.

Definition xsstrike_envelope (url : string) (crawl : bool)
           (result : CompletedProcess) : json :=
  JDict [
    ("success", JBool true);
    ("url", JStr url);
    ("crawl", JBool crawl);
    ("results", JDict [("output", JStr (stdout result))])].

Definition run_xsstrike (url : string) (crawl : bool) : M string :=
  try_except
    (let cmd := xsstrike_cmd url crawl in
     result <- subprocess_run os (mkSpec cmd None None) ;;
     ret (json_dumps None (xsstrike_envelope url crawl result)))
    plain_handlers.

(** *** tools/hashcat.py *)

Definition hash_mode_map : list (string * string) :=
  [ ("md5", "0");
    ("sha1", "100");
    ("sha256", "1400");
    ("sha512", "1700");
    ("ntlm", "1000");
    ("bcrypt", "3200") ].

(** [d.get(k, default)]. *)
Fixpoint dict_get (d : list (string * string)) (k default : string) : string :=
  match d with
  | [] => default
  | (k', v) :: rest => if String.eqb k k' then v else dict_get rest k default
  end.

Definition hashcat_mode (hash_type : string) : string :=
  dict_get hash_mode_map (lower hash_type) hash_type.

Definition hashcat_cmd (hash_file wordlist hash_type : string) : list string :=
  let mode := hashcat_mode hash_type in
  ["hashcat"; "-m"; mode; "--potfile-disable"; "--outfile-format=2";
   hash_file; wordlist].

Definition hashcat_envelope (hash_file hash_type mode : string)
           (result : CompletedProcess) : json :=
  JDict [
    ("success", JBool true);
    ("hash_file", JStr hash_file);
    ("hash_type", JStr hash_type);
    ("mode", JStr mode);
    ("results", JDict [("output", JStr (stdout result));
                       ("cracked_hashes", JList [])])].

Definition run_hashcat (hash_file wordlist hash_type : string) : M string :=
  try_except
    (let mode := hashcat_mode hash_type in
     let cmd := hashcat_cmd hash_file wordlist hash_type in
     result <- subprocess_run os (mkSpec cmd None None) ;;
     ret (json_dumps None (hashcat_envelope hash_file hash_type mode result)))
    plain_handlers.

(** *** The JSON-lines loop of subfinder.py and httpx.py

    [for line in lines: if line.strip(): try: acc.append(json.loads(line))
    except json.JSONDecodeError: continue]. The two files carry the same
    loop; [acc] is the list built so far. *)
Fixpoint json_lines (lines : list string) (acc : list json) : M (list json) :=
  match lines with
  | [] => ret acc
  | line :: rest =>
      if truthy (strip line) then
        acc' <- try_except
                  (data <- lift (json_loads line) ;;
                   ret (acc ++ [data]))
                  (fun e => match e with
                            | JSONDecodeError _ => Some (ret acc)
                            | _ => None
                            end) ;;
        json_lines rest acc'
      else json_lines rest acc
  end.

(** The records the loop keeps when no line raises anything but
    [JSONDecodeError]: those of the non-blank lines that decode. *)
Fixpoint records (lines : list string) : list json :=
  match lines with
  | [] => []
  | line :: rest =>
      if truthy (strip line) then
        match json_loads line with
        | inl data => data :: records rest
        | inr _ => records rest
        end
      else records rest
  end.

(** A line the loop passes over without an exception leaving it. *)
Definition tolerated (line : string) : Prop :=
  truthy (strip line) = true ->
  match json_loads line with
  | inl _ => True
  | inr (JSONDecodeError _) => True
  | inr _ => False
  end.

(** [stdout.strip().split('\n')]. *)
Definition output_lines (out : string) : list string :=
  split nl_char (strip out).

(** *** tools/subfinder.py *)

Definition subfinder_cmd (domain : string) (recursive : bool) : list string :=
  let cmd := ["subfinder"; "-d"; domain; "-json"] in
  if recursive then cmd ++ ["-recursive"] else cmd.

Definition subfinder_envelope (domain : string) (recursive : bool)
           (subdomains : list json) : json :=
  JDict [
    ("success", JBool true);
    ("domain", JStr domain);
    ("recursive", JBool recursive);
    ("subdomains", JList subdomains);
    ("count", JNat (List.length subdomains))].

Definition run_subfinder (domain : string) (recursive : bool) : M string :=
  try_except
    (let cmd := subfinder_cmd domain recursive in
     result <- subprocess_run os (mkSpec cmd None None) ;;
     subdomains <- json_lines (output_lines (stdout result)) [] ;;
     ret (json_dumps (Some 2) (subfinder_envelope domain recursive subdomains)))
    plain_handlers.

(** *** tools/httpx.py *)

Definition no_targets_message : string :=
  "No targets provided. Please provide at least one URL or IP address.".

Definition wrong_binary_message : string :=
  "Wrong httpx binary detected. Please install projectdiscovery httpx (not Python httpx). Install with: go install -v github.com/projectdiscovery/httpx/cmd/httpx@latest".

Definition not_found_message : string :=
  "httpx tool not found. Please install projectdiscovery httpx: go install -v github.com/projectdiscovery/httpx/cmd/httpx@latest".

Definition timeout_suggestion : string :=
  "The site may be slow, or httpx may be waiting for a response. Try checking network connectivity or scanning a different URL.".

(** The phrases that betray the Python package of the same name. *)
Definition wrong_binary_phrases : list string :=
  [ "command line client could not run";
    "required dependencies";
    "pip install 'httpx[cli]'" ].

(** [[int(sc) for sc in status_codes if sc is not None]]. *)
Fixpoint not_none (l : list (option Z)) : list Z :=
  match l with
  | [] => []
  | Some z :: rest => z :: not_none rest
  | None :: rest => not_none rest
  end.

(** The [-sc] part of the command, present when the filter is given and
    still non-empty once its [None] entries are gone. *)
Definition httpx_status_args (status_codes : option (list (option Z)))
  : list string :=
  match status_codes with
  | None => []
  | Some [] => []
  | Some scs =>
      match not_none scs with
      | [] => []
      | ints => ["-sc"; join "," (map str_Z ints)]
      end
  end.

Definition httpx_cmd (targets : list string)
           (status_codes : option (list (option Z))) : list string :=
  let cmd := ["httpx"; "-json"; "-silent"] in
  let cmd := cmd ++ ["-timeout"; "10"] in
  let cmd := cmd ++ httpx_status_args status_codes in
  if (List.length targets =? 1)%nat
  then cmd ++ ["-u"; nth 0 targets EmptyString]
  else cmd ++ ["-l"; "-"].

Definition httpx_input (targets : list string) : option string :=
  if (List.length targets =? 1)%nat
  then None
  else Some (join nl targets).

(** [max(20, (15 * len(targets)) + 20)]. *)
Definition httpx_timeout (targets : list string) : nat :=
  Nat.max 20 (15 * List.length targets + 20).

Definition httpx_spec (targets : list string)
           (status_codes : option (list (option Z))) : ProcessSpec :=
  mkSpec (httpx_cmd targets status_codes)
         (httpx_input targets)
         (Some (httpx_timeout targets)).

Definition httpx_timeout_envelope (targets cmd : list string)
           (timeout_seconds : nat) : json :=
  JDict [
    ("success", JBool false);
    ("error", JStr ("httpx scan timed out after " ++ str_nat timeout_seconds
                    ++ " seconds. The httpx tool may be hanging or the target is unreachable. Command: "
                    ++ join " " cmd)%string);
    ("targets", JStrs targets);
    ("timeout_seconds", JNat timeout_seconds);
    ("suggestion", JStr timeout_suggestion)].

(** [(e.stderr or "") + (e.stdout or "") + str(e)], lower-cased. *)
Definition httpx_error_lower (e : exn) (out err : option string) : string :=
  lower (or_else err EmptyString ++ or_else out EmptyString ++ str_exc e)%string.

Definition is_wrong_binary (error_lower : string) : bool :=
  existsb (fun phrase => contains phrase error_lower) wrong_binary_phrases.

Definition is_not_found (error_lower : string) : bool :=
  contains "no such file" error_lower || contains "not found" error_lower.

(** The [except CalledProcessError as e] clause. *)
Definition httpx_called_process_error (e : exn) (out err : option string)
  : json :=
  let error_lower := httpx_error_lower e out err in
  if is_wrong_binary error_lower then
    JDict [("success", JBool false);
           ("error", JStr wrong_binary_message);
           ("stderr", JOptStr err);
           ("stdout", JOptStr out)]
  else if is_not_found error_lower then
    JDict [("success", JBool false);
           ("error", JStr not_found_message);
           ("stderr", JOptStr err);
           ("stdout", JOptStr out)]
  else
    JDict [("success", JBool false);
           ("error", JStr ("httpx execution failed: "
                           ++ or_else err (str_exc e))%string);
           ("stderr", JOptStr err);
           ("stdout", JOptStr out)].

(** The three clauses of the outer [try], in their order. *)
Definition httpx_failure (e : exn) : json :=
  match e with
  | CalledProcessError _ _ out err => httpx_called_process_error e out err
  | FileNotFoundError _ =>
      JDict [("success", JBool false);
             ("error", JStr not_found_message)]
  | _ =>
      JDict [("success", JBool false);
             ("error", JStr ("Unexpected error: " ++ str_exc e)%string)]
  end.

Definition httpx_handlers (e : exn) : option (M string) :=
  Some (ret (json_dumps (Some 2) (httpx_failure e))).

Definition no_targets_envelope : json :=
  JDict [("success", JBool false);
         ("error", JStr no_targets_message)].

Definition httpx_envelope (targets : list string) (results : list json)
  : json :=
  JDict [
    ("success", JBool true);
    ("targets", JStrs targets);
    ("results", JList results);
    ("count", JNat (List.length results))].

(** The function leaves through [return] in three places of the [try]
    body: the guard on [targets], the inner [except TimeoutExpired], and
    the end. The inner [try] hands on either the text to return at once
    ([inl]) or the completed process ([inr]). *)
Definition run_httpx (targets : list string)
           (status_codes : option (list (option Z))) : M string :=
  try_except
    (if (List.length targets =? 0)%nat then
       ret (json_dumps (Some 2) no_targets_envelope)
     else
       let cmd := httpx_cmd targets status_codes in
       let input_data := httpx_input targets in
       let timeout_seconds := httpx_timeout targets in
       r <- try_except
              (result <- subprocess_run os
                           (mkSpec cmd input_data (Some timeout_seconds)) ;;
               ret (inr result))
              (fun e => match e with
                        | TimeoutExpired _ _ =>
                            Some (ret (inl (json_dumps (Some 2)
                              (httpx_timeout_envelope targets cmd timeout_seconds))))
                        | _ => None
                        end) ;;
       match r with
       | inl early => ret early
       | inr result =>
           results <- json_lines (output_lines (stdout result)) [] ;;
           ret (json_dumps (Some 2) (httpx_envelope targets results))
       end)
    httpx_handlers.

(** *** main.py: the registered operations backed by these adapters *)

Inductive call : Type :=
| nmap_wrapper (target : string) (ports scan_type : option string)
| sqlmap_wrapper (url : string) (risk level : option Z)
| xsstrike_wrapper (url : string) (crawl : bool)
| hashcat_wrapper (hash_file wordlist hash_type : string)
| subfinder_wrapper (domain : string) (recursive : bool)
| httpx_wrapper (urls : list string) (status_codes : option (list (option Z))).

Definition dispatch (c : call) : M string :=
  match c with
  | nmap_wrapper target ports scan_type => run_nmap target ports scan_type
  | sqlmap_wrapper url risk level => run_sqlmap url risk level
  | xsstrike_wrapper url crawl => run_xsstrike url crawl
  | hashcat_wrapper hash_file wordlist hash_type =>
      run_hashcat hash_file wordlist hash_type
  | subfinder_wrapper domain recursive => run_subfinder domain recursive
  | httpx_wrapper urls status_codes => run_httpx urls status_codes
  end.

(** The process an operation asks for, when it asks for one. *)
Definition spec_of (c : call) : option ProcessSpec :=
  match c with
  | nmap_wrapper target ports scan_type =>
      Some (mkSpec (nmap_cmd target ports scan_type) None None)
  | sqlmap_wrapper url risk level =>
      Some (mkSpec (sqlmap_cmd url risk level) None None)
  | xsstrike_wrapper url crawl =>
      Some (mkSpec (xsstrike_cmd url crawl) None None)
  | hashcat_wrapper hash_file wordlist hash_type =>
      Some (mkSpec (hashcat_cmd hash_file wordlist hash_type) None None)
  | subfinder_wrapper domain recursive =>
      Some (mkSpec (subfinder_cmd domain recursive) None None)
  | httpx_wrapper urls status_codes =>
      match urls with
      | [] => None
      | _ => Some (httpx_spec urls status_codes)
      end
  end.

(** The key of the list-shaped payload of a successful envelope. *)
Definition list_payload (c : call) : option string :=
  match c with
  | subfinder_wrapper _ _ => Some "subdomains"
  | httpx_wrapper _ _ => Some "results"
  | _ => None
  end.

(** *** Outcomes, by the behaviour of the process

    The value an adapter comes back with, written as a function of what
    its process does; the lemmas of the second part prove the adapters
    equal to these. *)

(** An unbounded [subprocess.run] under [check=True], followed by the
    shared handlers; [k] renders the success envelope. *)
Definition unbounded_outcome (spec : ProcessSpec)
           (k : CompletedProcess -> outcome string) : outcome string :=
  match os spec with
  | Exits _ rc out err =>
      if (rc =? 0)%Z
      then k (mkCompleted rc out err)
      else Returns (json_dumps None (plain_failure
             (CalledProcessError rc (args spec) (Some out) (Some err))))
  | Hangs => Blocks
  | LaunchFails e => Returns (json_dumps None (plain_failure e))
  end.

(** The loop over the lines of [out], from an empty list. *)
Definition parse_outcome (out : string) : outcome (list json) :=
  fst (json_lines (output_lines out) [] []).

Definition subfinder_outcome (domain : string) (recursive : bool)
  : outcome string :=
  unbounded_outcome (mkSpec (subfinder_cmd domain recursive) None None)
    (fun result =>
       match parse_outcome (stdout result) with
       | Returns subdomains =>
           Returns (json_dumps (Some 2)
                      (subfinder_envelope domain recursive subdomains))
       | Raises e => Returns (json_dumps None (plain_failure e))
       | Blocks => Blocks
       end).

Definition httpx_outcome (targets : list string)
           (status_codes : option (list (option Z))) : outcome string :=
  let cmd := httpx_cmd targets status_codes in
  let bound := httpx_timeout targets in
  let timed_out :=
    Returns (json_dumps (Some 2) (httpx_timeout_envelope targets cmd bound)) in
  match os (httpx_spec targets status_codes) with
  | Exits elapsed rc out err =>
      if (bound <? elapsed)%nat then timed_out
      else if (rc =? 0)%Z then
        match parse_outcome out with
        | Returns results =>
            Returns (json_dumps (Some 2) (httpx_envelope targets results))
        | Raises e => Returns (json_dumps (Some 2) (httpx_failure e))
        | Blocks => Blocks
        end
      else Returns (json_dumps (Some 2) (httpx_failure
             (CalledProcessError rc cmd (Some out) (Some err))))
  | Hangs => timed_out
  | LaunchFails (TimeoutExpired _ _) => timed_out
  | LaunchFails e => Returns (json_dumps (Some 2) (httpx_failure e))
  end.

Definition outcome_of (c : call) : outcome string :=
  match c with
  | nmap_wrapper target ports scan_type =>
      unbounded_outcome (mkSpec (nmap_cmd target ports scan_type) None None)
        (fun r => Returns (json_dumps None
                             (nmap_envelope target ports scan_type r)))
  | sqlmap_wrapper url risk level =>
      unbounded_outcome (mkSpec (sqlmap_cmd url risk level) None None)
        (fun r => Returns (json_dumps None (sqlmap_envelope url risk level r)))
  | xsstrike_wrapper url crawl =>
      unbounded_outcome (mkSpec (xsstrike_cmd url crawl) None None)
        (fun r => Returns (json_dumps None (xsstrike_envelope url crawl r)))
  | hashcat_wrapper hash_file wordlist hash_type =>
      unbounded_outcome
        (mkSpec (hashcat_cmd hash_file wordlist hash_type) None None)
        (fun r => Returns (json_dumps None
                    (hashcat_envelope hash_file hash_type
                       (hashcat_mode hash_type) r)))
  | subfinder_wrapper domain recursive => subfinder_outcome domain recursive
  | httpx_wrapper [] _ => Returns (json_dumps (Some 2) no_targets_envelope)
  | httpx_wrapper urls status_codes => httpx_outcome urls status_codes
  end.

(** The processes an operation launches. *)
Definition launches (c : call) : trace :=
  match spec_of c with
  | Some spec => [spec]
  | None => []
  end.

(** A Result Envelope: the text of a JSON object with a boolean
    [success] member. *)
Definition is_envelope (s : string) : Prop :=
  exists indent env b,
    s = json_dumps indent env /\ field "success" env = Some (JBool b).

(** The count discipline of a successful envelope of operation [c]. *)
Definition count_ok (c : call) (env : json) : Prop :=
  match list_payload c with
  | Some key =>
      exists l, field key env = Some (JList l)
                /\ field "count" env = Some (JNat (List.length l))
  | None =>
      field "count" env = None
      /\ exists kv, field "results" env = Some (JDict kv)
  end.

(** What an operation may end with: the text of a successful envelope
    obeying the count discipline, the text of a failure envelope, or no
    answer, on an unbounded process that hangs. *)
Inductive shaped (c : call) : outcome string -> Prop :=
| shaped_success indent env :
    field "success" env = Some (JBool true) ->
    count_ok c env ->
    shaped c (Returns (json_dumps indent env))
| shaped_failure indent env :
    field "success" env = Some (JBool false) ->
    shaped c (Returns (json_dumps indent env))
| shaped_blocked spec :
    spec_of c = Some spec ->
    timeout spec = None ->
    os spec = Hangs ->
    shaped c Blocks.

End Adapters.

(** ** A reference Python library

    Concrete [json.dumps], [json.loads] and [str] on exceptions, used to run
    the adapters on examples. [dumps] follows the default separators and the
    [indent] layout of the library and is exact on ASCII text; [loads]
    decodes the JSON of RFC 8259 except [\u] escapes, keeps a float as its
    literal, and reports anything else as [JSONDecodeError]; [str_exc]
    renders [CalledProcessError] for a positive exit status and an argument
    vector of plain words. *)

Module PyRef.

Definition dq_char : ascii := ascii_of_nat 34.
Definition bs_char : ascii := ascii_of_nat 92.
Definition dq : string := String dq_char EmptyString.

Definition hex_digit (n : nat) : ascii :=
  nth n (list_ascii_of_string "0123456789abcdef") "0"%char.

Definition escape_char (c : ascii) : string :=
  let n := nat_of_ascii c in
  if (n =? 34)%nat then String bs_char dq
  else if (n =? 92)%nat then String bs_char (String bs_char EmptyString)
  else if (n =? 10)%nat then String bs_char "n"
  else if (n =? 13)%nat then String bs_char "r"
  else if (n =? 9)%nat then String bs_char "t"
  else if (n =? 8)%nat then String bs_char "b"
  else if (n =? 12)%nat then String bs_char "f"
  else if (n <? 32)%nat then
    String bs_char (String "u" (String "0" (String "0"
      (String (hex_digit (n / 16)) (String (hex_digit (n mod 16)) EmptyString)))))
  else String c EmptyString.

Fixpoint escape (s : string) : string :=
  match s with
  | EmptyString => EmptyString
  | String c s' => (escape_char c ++ escape s')%string
  end.

Definition quote (s : string) : string := (dq ++ escape s ++ dq)%string.

Fixpoint spaces (n : nat) : string :=
  match n with
  | O => EmptyString
  | S n' => String " " (spaces n')
  end.

(** The text between the brackets of a non-empty container at nesting
    depth [level]. *)
Definition layout (indent : option nat) (level : nat) (items : list string)
  : string :=
  match indent with
  | None => join ", " items
  | Some n =>
      (nl ++ spaces (n * S level)
          ++ join ("," ++ nl ++ spaces (n * S level)) items
          ++ nl ++ spaces (n * level))%string
  end.

Fixpoint dumps_at (indent : option nat) (level : nat) (j : json) : string :=
  match j with
  | JNull => "null"
  | JBool true => "true"
  | JBool false => "false"
  | JInt z => str_Z z
  | JFloat literal => literal
  | JStr s => quote s
  | JList [] => "[]"
  | JList l =>
      ("[" ++ layout indent level (map (dumps_at indent (S level)) l) ++ "]")%string
  | JDict [] => "{}"
  | JDict kv =>
      ("{" ++ layout indent level
                (map (fun p => (quote (fst p) ++ ": "
                                ++ dumps_at indent (S level) (snd p))%string) kv)
           ++ "}")%string
  end.

Definition dumps (indent : option nat) (j : json) : string :=
  dumps_at indent 0 j.

(** *** Decoding *)

Definition is_json_ws (c : ascii) : bool :=
  let n := nat_of_ascii c in
  ((n =? 32) || (n =? 9) || (n =? 10) || (n =? 13))%nat.

Fixpoint skip_ws (s : string) : string :=
  match s with
  | String c s' => if is_json_ws c then skip_ws s' else s
  | EmptyString => EmptyString
  end.

Definition is_digit (c : ascii) : bool :=
  let n := nat_of_ascii c in ((48 <=? n) && (n <=? 57))%nat.

(** The longest run of digits at the head of [s], and what follows. *)
Fixpoint digits (s : string) : string * string :=
  match s with
  | String c s' =>
      if is_digit c then let (d, r) := digits s' in (String c d, r)
      else (EmptyString, s)
  | EmptyString => (EmptyString, EmptyString)
  end.

Definition unescape (c : ascii) : option ascii :=
  let n := nat_of_ascii c in
  if (n =? 34)%nat then Some dq_char
  else if (n =? 92)%nat then Some bs_char
  else if (n =? 47)%nat then Some "/"%char
  else if (n =? 110)%nat then Some (ascii_of_nat 10)
  else if (n =? 114)%nat then Some (ascii_of_nat 13)
  else if (n =? 116)%nat then Some (ascii_of_nat 9)
  else if (n =? 98)%nat then Some (ascii_of_nat 8)
  else if (n =? 102)%nat then Some (ascii_of_nat 12)
  else None.

(** The body of a string literal, after its opening quote. *)
Fixpoint string_body (s : string) : option (string * string) :=
  match s with
  | EmptyString => None
  | String c s' =>
      if Ascii.eqb c dq_char then Some (EmptyString, s')
      else if Ascii.eqb c bs_char then
        match s' with
        | String e s'' =>
            match unescape e, string_body s'' with
            | Some c', Some (body, r) => Some (String c' body, r)
            | _, _ => None
            end
        | EmptyString => None
        end
      else if (nat_of_ascii c <? 32)%nat then None
      else match string_body s' with
           | Some (body, r) => Some (String c body, r)
           | None => None
           end
  end.

(** A number at the head of [s]: an optional minus, then a zero or a
    run of digits, then an optional fraction and an optional exponent. *)
Definition number (s : string) : option (json * string) :=
  let (sign, s1) := match s with
                    | String "-" r => ("-", r)
                    | _ => (EmptyString, s)
                    end in
  let (int_part, s2) :=
    match s1 with
    | String "0" r => ("0", r)
    | _ => digits s1
    end in
  if negb (truthy int_part) then None else
  let (frac, s3) :=
    match s2 with
    | String "." r =>
        let (d, r') := digits r in
        if truthy d then (String "." d, r') else (EmptyString, s2)
    | _ => (EmptyString, s2)
    end in
  let (expo, s4) :=
    match s3 with
    | String e r =>
        if Ascii.eqb e "e" || Ascii.eqb e "E" then
          let (sg, r1) := match r with
                          | String "+" r1 => ("+", r1)
                          | String "-" r1 => ("-", r1)
                          | _ => (EmptyString, r)
                          end in
          let (d, r2) := digits r1 in
          if truthy d then ((String e sg ++ d)%string, r2) else (EmptyString, s3)
        else (EmptyString, s3)
    | EmptyString => (EmptyString, s3)
    end in
  if truthy frac || truthy expo
  then Some (JFloat (sign ++ int_part ++ frac ++ expo)%string, s4)
  else match NilZero.int_of_string (sign ++ int_part)%string with
       | Some i => Some (JInt (Z.of_int i), s4)
       | None => None
       end.

(** One JSON value at the head of [s]; [fuel] bounds the nesting depth. *)
Fixpoint value (fuel : nat) (s : string) : option (json * string) :=
  match fuel with
  | O => None
  | S fuel' =>
      (* the elements of an array, after its opening bracket *)
      let elements :=
        fix elements (n : nat) (s : string) : option (list json * string) :=
          match n with
          | O => None
          | S n' =>
              match value fuel' (skip_ws s) with
              | Some (v, r) =>
                  match skip_ws r with
                  | String "," r' =>
                      match elements n' r' with
                      | Some (vs, r'') => Some (v :: vs, r'')
                      | None => None
                      end
                  | String "]" r' => Some ([v], r')
                  | _ => None
                  end
              | None => None
              end
          end in
      (* the members of an object, after its opening brace *)
      let members :=
        fix members (n : nat) (s : string) : option (list (string * json) * string) :=
          match n with
          | O => None
          | S n' =>
              match skip_ws s with
              | String c r =>
                  if Ascii.eqb c dq_char then
                    match string_body r with
                    | Some (k, r1) =>
                        match skip_ws r1 with
                        | String ":" r2 =>
                            match value fuel' (skip_ws r2) with
                            | Some (v, r3) =>
                                match skip_ws r3 with
                                | String "," r4 =>
                                    match members n' r4 with
                                    | Some (kvs, r5) => Some ((k, v) :: kvs, r5)
                                    | None => None
                                    end
                                | String "}" r4 => Some ([(k, v)], r4)
                                | _ => None
                                end
                            | None => None
                            end
                        | _ => None
                        end
                    | None => None
                    end
                  else None
              | EmptyString => None
              end
          end in
      match s with
      | String "n" (String "u" (String "l" (String "l" r))) => Some (JNull, r)
      | String "t" (String "r" (String "u" (String "e" r))) => Some (JBool true, r)
      | String "f" (String "a" (String "l" (String "s" (String "e" r)))) =>
          Some (JBool false, r)
      | String "[" r =>
          match skip_ws r with
          | String "]" r' => Some (JList [], r')
          | _ => match elements (String.length r) r with
                 | Some (vs, r') => Some (JList vs, r')
                 | None => None
                 end
          end
      | String "{" r =>
          match skip_ws r with
          | String "}" r' => Some (JDict [], r')
          | _ => match members (String.length r) r with
                 | Some (kvs, r') => Some (JDict kvs, r')
                 | None => None
                 end
          end
      | String c r =>
          if Ascii.eqb c dq_char then
            match string_body r with
            | Some (body, r') => Some (JStr body, r')
            | None => None
            end
          else number s
      | EmptyString => None
      end
  end.

Definition loads (s : string) : json + exn :=
  match value (S (String.length s)) (skip_ws s) with
  | Some (v, r) =>
      match skip_ws r with
      | EmptyString => inl v
      | _ => inr (JSONDecodeError "Extra data")
      end
  | None => inr (JSONDecodeError "Expecting value")
  end.

(** [repr] of a list of plain words. *)
Definition repr_words (l : list string) : string :=
  ("[" ++ join ", " (map (fun w => "'" ++ w ++ "'") l) ++ "]")%string.

Definition str_exc (e : exn) : string :=
  match e with
  | CalledProcessError rc cmd _ _ =>
      ("Command '" ++ repr_words cmd ++ "' returned non-zero exit status "
                   ++ str_Z rc ++ ".")%string
  | TimeoutExpired cmd limit =>
      ("Command '" ++ repr_words cmd ++ "' timed out after "
                   ++ str_nat limit ++ " seconds")%string
  | FileNotFoundError msg => msg
  | JSONDecodeError msg => msg
  | OtherException msg => msg
  end.

End PyRef.


(** ** Vocabulary of the properties *)

(** A process that is still running when [bound] seconds have passed. *)
Definition exceeds (bound : nat) (b : behaviour) : Prop :=
  match b with
  | Exits elapsed _ _ _ => bound < elapsed
  | Hangs => True
  | LaunchFails _ => False
  end.

(** A process that comes to an end by itself. *)
Definition ends (b : behaviour) : Prop :=
  match b with
  | Hangs => False
  | _ => True
  end.




(** A target that holds no newline. *)
Definition one_line (t : string) : Prop :=
  ~ In nl_char (list_ascii_of_string t).

(** The argument vector of httpx before the targets are added. *)
Definition httpx_base (status_codes : option (list (option Z))) : list string :=
  ["httpx"; "-json"; "-silent"; "-timeout"; "10"]
    ++ httpx_status_args status_codes.

(** An alias the table knows, the lookup being made on the lower-cased
    string. *)
Definition recognized (hash_type : string) : Prop :=
  exists k v, In (k, v) hash_mode_map /\ lower hash_type = k.

(** ** Sample data for the examples *)

Module Sample.

Definition record1 : json := JDict [("host", JStr "a.example.com")].
Definition record2 : json := JDict [("host", JStr "b.example.com")].

Definition line1 : string := PyRef.dumps None record1.
Definition line2 : string := PyRef.dumps None record2.
Definition noise : string := "[INF] Enumerating subdomains for example.com".

(** Two records, a log line between them, an empty line and the final
    newline. *)
Definition stdout : string :=
  (line1 ++ nl ++ noise ++ nl ++ nl ++ line2 ++ nl)%string.

(** A tool that prints [stdout] and exits with status 0 after two
    seconds. *)
Definition prints_records (_ : ProcessSpec) : behaviour :=
  Exits 2 0 stdout EmptyString.

(** A tool that never exits. *)
Definition hangs (_ : ProcessSpec) : behaviour := Hangs.

(** A tool that fails with status [1] and [err] on standard error. *)
Definition fails_with (err : string) (_ : ProcessSpec) : behaviour :=
  Exits 1 1 EmptyString err.

(** A tool that prints nothing and exits with status 0. *)
Definition silent (_ : ProcessSpec) : behaviour :=
  Exits 1 0 EmptyString EmptyString.

End Sample.

(** ** Vocabulary of the further properties *)

(** An operation whose adapter uses the shared handlers: all but the HTTP
    probe. *)
Definition plain (c : call) : Prop :=
  match c with
  | httpx_wrapper _ _ => False
  | _ => True
  end.

(** Every exception class but [CalledProcessError]. *)
Definition not_called_process_error (e : exn) : Prop :=
  match e with
  | CalledProcessError _ _ _ _ => False
  | _ => True
  end.

(** The name of the program an operation starts. *)
Definition binary (c : call) : string :=
  match c with
  | nmap_wrapper _ _ _ => "nmap"
  | sqlmap_wrapper _ _ _ => "sqlmap"
  | xsstrike_wrapper _ _ => "xsstrike"
  | hashcat_wrapper _ _ _ => "hashcat"
  | subfinder_wrapper _ _ => "subfinder"
  | httpx_wrapper _ _ => "httpx"
  end.

(** A text made of white space only. *)
Definition all_space (s : string) : Prop :=
  Forall (fun c => is_space c = true) (list_ascii_of_string s).

(** A text made of decimal digits only. *)
Definition is_decimal (c : ascii) : bool :=
  let n := nat_of_ascii c in ((48 <=? n) && (n <=? 57))%nat.

Definition digits_only (s : string) : Prop :=
  Forall (fun c => is_decimal c = true) (list_ascii_of_string s).

(** The member names of an object, in order. *)
Definition keys (j : json) : list string :=
  match j with
  | JDict kv => map fst kv
  | _ => []
  end.

(** ** A decoder with a nesting limit

    [json.loads] gives up on arrays nested deeper than the interpreter's
    recursion limit with an exception that is not [JSONDecodeError]. The
    sample decoder below does so beyond three opening brackets. *)

Module Limited.

Fixpoint nesting (s : string) : nat :=
  match s with
  | String "[" s' => S (nesting s')
  | _ => 0
  end.

Definition loads (s : string) : json + exn :=
  if (3 <? nesting s)%nat
  then inr (OtherException "maximum recursion depth exceeded")
  else PyRef.loads s.

Definition deep : string := "[[[[1]]]]".

(** A record, a line nested too deeply, a record. *)
Definition stdout : string :=
  (Sample.line1 ++ nl ++ deep ++ nl ++ Sample.line2 ++ nl)%string.

Definition prints (_ : ProcessSpec) : behaviour :=
  Exits 2 0 stdout EmptyString.

End Limited.

(** A record, a line of opening brackets that are never closed, nested
    beyond the limit of [Limited.loads], a record. *)

Module Unclosed.

Definition line : string := "[[[[".

Definition stdout : string :=
  (Sample.line1 ++ nl ++ line ++ nl ++ Sample.line2 ++ nl)%string.

Definition prints (_ : ProcessSpec) : behaviour :=
  Exits 2 0 stdout EmptyString.

End Unclosed.

(** ** Reading the loop and the commands back *)


(** The integer written in decimal in [s]. *)
Definition read_int (s : string) : option Z :=
  option_map Z.of_int (NilZero.int_of_string s).

(** The member of [results] that holds the raw output, for the adapters that
    hand it on unparsed. *)
Definition raw_member (c : call) : option string :=
  match c with
  | nmap_wrapper _ _ _ => Some "xml_output"
  | sqlmap_wrapper _ _ _ => Some "output"
  | xsstrike_wrapper _ _ => Some "output"
  | hashcat_wrapper _ _ _ => Some "output"
  | _ => None
  end.

(** An envelope object: [success] comes first and no member name occurs
    twice. *)
Definition well_keyed (env : json) : Prop :=
  (exists b rest, env = JDict (("success", JBool b) :: rest))
  /\ NoDup (keys env).

(** An answer that, when it is a text, is the text of a well-keyed
    envelope. *)
Definition keyed (json_dumps : option nat -> json -> string)
           (o : outcome string) : Prop :=
  match o with
  | Returns s => exists indent env, s = json_dumps indent env /\ well_keyed env
  | _ => True
  end.

(** * Properties *)

(** ** Strings and the alias table *)

Section StringFacts.

Lemma prefix_app (p b : string) : String.prefix p (p ++ b)%string = true.
Proof.
  induction p as [|c p IH]; simpl.
  - now destruct b.
  - destruct (ascii_dec c c) as [_|Hne]; [exact IH | now elim Hne].
Qed.

Lemma prefix_split (p s : string) :
  String.prefix p s = true -> exists b, s = (p ++ b)%string.
Proof.
  revert s. induction p as [|c p IH]; intros s H.
  - now exists s.
  - destruct s as [|d s]; simpl in H; try discriminate.
    destruct (ascii_dec c d) as [->|_]; try discriminate.
    destruct (IH s H) as [b ->]. now exists b.
Qed.

Lemma contains_unfold (needle hay : string) :
  contains needle hay
  = String.prefix needle hay
    || match hay with
       | EmptyString => false
       | String _ hay' => contains needle hay'
       end.
Proof. destruct hay; reflexivity. Qed.

(** [needle in hay] holds exactly when [hay] reads [a + needle + b]. *)
Lemma contains_intro (needle a b : string) :
  contains needle (a ++ needle ++ b)%string = true.
Proof.
  induction a as [|c a IH].
  - rewrite contains_unfold. simpl. now rewrite prefix_app.
  - simpl. rewrite IH. apply orb_true_r.
Qed.

Lemma contains_elim (needle hay : string) :
  contains needle hay = true ->
  exists a b, hay = (a ++ needle ++ b)%string.
Proof.
  induction hay as [|c hay IH]; rewrite contains_unfold; intros H;
    apply orb_true_iff in H; destruct H as [H|H]; try discriminate.
  - apply prefix_split in H. destruct H as [b ->].
    now exists EmptyString, b.
  - apply prefix_split in H. destruct H as [b ->].
    now exists EmptyString, b.
  - destruct (IH H) as (a & b & ->). now exists (String c a), b.
Qed.

(** Splitting at a character undoes joining with it. *)
Lemma split_one_line (sep : ascii) (s : string) :
  ~ In sep (list_ascii_of_string s) -> split sep s = [s].
Proof.
  induction s as [|c s IH]; intros Hfree; simpl.
  - reflexivity.
  - destruct (Ascii.eqb_spec c sep) as [->|_].
    + elim Hfree. now left.
    + rewrite IH; [reflexivity|]. intros Hin. apply Hfree. now right.
Qed.

Lemma split_app_sep (sep : ascii) (a b : string) :
  ~ In sep (list_ascii_of_string a) ->
  split sep (a ++ String sep b)%string = a :: split sep b.
Proof.
  induction a as [|c a IH]; intros Hfree; simpl.
  - now rewrite Ascii.eqb_refl.
  - destruct (Ascii.eqb_spec c sep) as [->|_].
    + elim Hfree. now left.
    + rewrite IH; [reflexivity|]. intros Hin. apply Hfree. now right.
Qed.

Lemma split_join (targets : list string) :
  targets <> [] ->
  Forall one_line targets ->
  split nl_char (join nl targets) = targets.
Proof.
  induction targets as [|t rest IH]; intros Hne Hall; [now elim Hne|].
  inversion Hall as [|? ? Ht Hrest]; subst.
  destruct rest as [|t' rest].
  - simpl. now apply split_one_line.
  - change (join nl (t :: t' :: rest))
      with (t ++ String nl_char (join nl (t' :: rest)))%string.
    rewrite split_app_sep by exact Ht.
    f_equal. apply IH; [discriminate | exact Hrest].
Qed.

Lemma or_else_some_empty (s : string) : or_else (Some s) EmptyString = s.
Proof. now destruct s. Qed.

(** [d.get(k, default)] on a key the dict lacks, and on one it holds. *)
Lemma dict_get_missing (d : list (string * string)) (k default : string) :
  (forall k' v, In (k', v) d -> k <> k') -> dict_get d k default = default.
Proof.
  induction d as [|[k' v] d IH]; intros Hmiss; simpl.
  - reflexivity.
  - destruct (String.eqb_spec k k') as [->|_].
    + now elim (Hmiss k' v (or_introl eq_refl)).
    + apply IH. intros k'' v' Hin. apply (Hmiss k'' v'). now right.
Qed.

Lemma hash_mode_map_lookup (k v default : string) :
  In (k, v) hash_mode_map -> dict_get hash_mode_map k default = v.
Proof.
  unfold hash_mode_map. simpl.
  intros H.
  repeat (destruct H as [H|H]; [now inversion H|]).
  contradiction.
Qed.

End StringFacts.

(** ** The monad and the JSON-lines loop *)

Section LoopFacts.

Variable json_loads : string -> json + exn.


(** The loop launches nothing and always comes back. *)
Lemma json_lines_ends (lines : list string) :
  forall acc t,
    (exists l, json_lines json_loads lines acc t = (Returns l, t))
    \/ (exists e, json_lines json_loads lines acc t = (Raises e, t)).
Proof.
  induction lines as [|line rest IH]; intros acc t.
  - left. now exists acc.
  - simpl. destruct (truthy (strip line)).
    + unfold bind at 1. unfold try_except, bind, lift.
      destruct (json_loads line) as [data|e]; simpl.
      * apply IH.
      * destruct e; simpl; try (right; eexists; reflexivity). apply IH.
    + apply IH.
Qed.

(** Its answer does not depend on the trace it starts from. *)
Lemma json_lines_trace (lines : list string) :
  forall acc t,
    json_lines json_loads lines acc t
    = (fst (json_lines json_loads lines acc []), t).
Proof.
  induction lines as [|line rest IH]; intros acc t.
  - reflexivity.
  - simpl. destruct (truthy (strip line)).
    + unfold bind at 1 3. unfold try_except, bind, lift.
      destruct (json_loads line) as [data|e]; simpl.
      * apply IH.
      * destruct e; simpl; try reflexivity. apply IH.
    + apply IH.
Qed.

Lemma parse_outcome_not_blocks (out : string) :
  parse_outcome json_loads out <> Blocks.
Proof.
  unfold parse_outcome.
  destruct (json_lines_ends (output_lines out) [] []) as [[l H]|[e H]];
    rewrite H; discriminate.
Qed.


End LoopFacts.

(** ** What each adapter does, by the behaviour of its process *)

Section AdapterFacts.

Variable json_dumps : option nat -> json -> string.
Variable json_loads : string -> json + exn.
Variable str_exc : exn -> string.
Variable os : ProcessSpec -> behaviour.

Lemma plain_adapter (spec : ProcessSpec) (k : CompletedProcess -> string) t :
  timeout spec = None ->
  try_except (result <- subprocess_run os spec ;; ret (k result))
             (plain_handlers json_dumps str_exc) t
  = (unbounded_outcome json_dumps str_exc os spec (fun r => Returns (k r)),
     t ++ [spec]).
Proof.
  intros Hnone.
  unfold try_except, bind, subprocess_run, unbounded_outcome.
  rewrite Hnone.
  destruct (os spec) as [elapsed rc out err| |e]; simpl; try reflexivity.
  destruct (rc =? 0)%Z; reflexivity.
Qed.

Lemma run_nmap_eq target ports scan_type t :
  run_nmap json_dumps str_exc os target ports scan_type t
  = (unbounded_outcome json_dumps str_exc os
       (mkSpec (nmap_cmd target ports scan_type) None None)
       (fun r => Returns (json_dumps None
                            (nmap_envelope target ports scan_type r))),
     t ++ [mkSpec (nmap_cmd target ports scan_type) None None]).
Proof. unfold run_nmap. now apply plain_adapter. Qed.

Lemma run_sqlmap_eq url risk level t :
  run_sqlmap json_dumps str_exc os url risk level t
  = (unbounded_outcome json_dumps str_exc os
       (mkSpec (sqlmap_cmd url risk level) None None)
       (fun r => Returns (json_dumps None (sqlmap_envelope url risk level r))),
     t ++ [mkSpec (sqlmap_cmd url risk level) None None]).
Proof. unfold run_sqlmap. now apply plain_adapter. Qed.

Lemma run_xsstrike_eq url crawl t :
  run_xsstrike json_dumps str_exc os url crawl t
  = (unbounded_outcome json_dumps str_exc os
       (mkSpec (xsstrike_cmd url crawl) None None)
       (fun r => Returns (json_dumps None (xsstrike_envelope url crawl r))),
     t ++ [mkSpec (xsstrike_cmd url crawl) None None]).
Proof. unfold run_xsstrike. now apply plain_adapter. Qed.

Lemma run_hashcat_eq hash_file wordlist hash_type t :
  run_hashcat json_dumps str_exc os hash_file wordlist hash_type t
  = (unbounded_outcome json_dumps str_exc os
       (mkSpec (hashcat_cmd hash_file wordlist hash_type) None None)
       (fun r => Returns (json_dumps None
                   (hashcat_envelope hash_file hash_type
                      (hashcat_mode hash_type) r))),
     t ++ [mkSpec (hashcat_cmd hash_file wordlist hash_type) None None]).
Proof. unfold run_hashcat. now apply plain_adapter. Qed.

Lemma run_subfinder_eq domain recursive t :
  run_subfinder json_dumps json_loads str_exc os domain recursive t
  = (subfinder_outcome json_dumps json_loads str_exc os domain recursive,
     t ++ [mkSpec (subfinder_cmd domain recursive) None None]).
Proof.
  unfold run_subfinder, subfinder_outcome, unbounded_outcome.
  unfold try_except, bind, subprocess_run; simpl.
  destruct (os _) as [elapsed rc out err| |e]; simpl; try reflexivity.
  destruct (rc =? 0)%Z; simpl; try reflexivity.
  rewrite json_lines_trace. unfold parse_outcome.
  destruct (fst (json_lines json_loads (output_lines out) [] []));
    reflexivity.
Qed.

Lemma run_httpx_eq target targets status_codes t :
  run_httpx json_dumps json_loads str_exc os (target :: targets) status_codes t
  = (httpx_outcome json_dumps json_loads str_exc os
       (target :: targets) status_codes,
     t ++ [httpx_spec (target :: targets) status_codes]).
Proof.
  unfold run_httpx, httpx_outcome, httpx_spec.
  set (urls := target :: targets).
  replace (List.length urls =? 0)%nat with false by reflexivity.
  unfold try_except, bind, subprocess_run; simpl.
  destruct (os _) as [elapsed rc out err| |e]; simpl; try reflexivity.
  - destruct (httpx_timeout urls <? elapsed)%nat; simpl; try reflexivity.
    destruct (rc =? 0)%Z; simpl; try reflexivity.
    rewrite json_lines_trace. unfold parse_outcome.
    destruct (fst (json_lines json_loads (output_lines out) [] []));
      reflexivity.
  - destruct e; reflexivity.
Qed.

Lemma run_httpx_no_targets status_codes t :
  run_httpx json_dumps json_loads str_exc os [] status_codes t
  = (Returns (json_dumps (Some 2) no_targets_envelope), t).
Proof. reflexivity. Qed.

(** Every operation, in one equation. *)
Lemma dispatch_eq (c : call) t :
  dispatch json_dumps json_loads str_exc os c t
  = (outcome_of json_dumps json_loads str_exc os c, t ++ launches c).
Proof.
  destruct c as [target ports scan_type|url risk level|url crawl
                |hash_file wordlist hash_type|domain recursive
                |urls status_codes]; simpl.
  - apply run_nmap_eq.
  - apply run_sqlmap_eq.
  - apply run_xsstrike_eq.
  - apply run_hashcat_eq.
  - apply run_subfinder_eq.
  - destruct urls as [|target targets].
    + rewrite run_httpx_no_targets. unfold launches; simpl.
      now rewrite app_nil_r.
    + apply run_httpx_eq.
Qed.

End AdapterFacts.

(** * The claims *)

(** ** Execution bound of the HTTP probe *)

Lemma httpx_timeout_linear (targets : list string) :
  httpx_timeout targets = 15 * List.length targets + 20.
Proof. unfold httpx_timeout. lia. Qed.

(** C3: a defect of the code. With one target the limit handed to
    [subprocess.run] is [max(20, 15 * 1 + 20)], that is 35 seconds, where
    the claim, like the comment of the source above the expression
    ("For single URL: 20 seconds should be enough"), gives 20 seconds. The
    floor of 20 never applies: for every target list the limit is 15 seconds
    a target plus 20, which gives the 65 and 170 seconds of three and ten
    targets. *)
Theorem httpx_bound_one_target_is_35 :
  (forall json_dumps json_loads str_exc os target status_codes,
      launched (run_httpx json_dumps json_loads str_exc os
                          [target] status_codes)
      = [mkSpec (httpx_cmd [target] status_codes) None (Some 35)])
  /\ List.length ["https://example.com"] = 1
  /\ httpx_timeout ["https://example.com"] = Nat.max 20 (15 * 1 + 20)
  /\ httpx_timeout ["https://example.com"] = 35
  /\ httpx_timeout ["https://example.com"] <> 20
  /\ (forall targets,
        httpx_timeout targets = 15 * List.length targets + 20).
Proof.
  split.
  - intros. unfold launched, run. now rewrite run_httpx_eq.
  - repeat split; try reflexivity; [discriminate|].
    exact httpx_timeout_linear.
Qed.

(** ** Command construction of the HTTP probe *)

(** C5: one target goes inline after [-u] with nothing on standard input;
    two or more targets are announced by [-l -] and written to standard
    input, joined by newlines in the order given. This is the process the
    adapter launches. *)
Theorem httpx_single_flag_or_stdin
        (status_codes : option (list (option Z))) :
  (forall target,
      httpx_cmd [target] status_codes
      = httpx_base status_codes ++ ["-u"; target]
      /\ httpx_input [target] = None)
  /\ (forall t1 t2 rest,
        httpx_cmd (t1 :: t2 :: rest) status_codes
        = httpx_base status_codes ++ ["-l"; "-"]
        /\ httpx_input (t1 :: t2 :: rest)
           = Some (String.concat nl (t1 :: t2 :: rest)))
  /\ (forall json_dumps json_loads str_exc os target targets,
        launched (run_httpx json_dumps json_loads str_exc os
                            (target :: targets) status_codes)
        = [mkSpec (httpx_cmd (target :: targets) status_codes)
                  (httpx_input (target :: targets))
                  (Some (httpx_timeout (target :: targets)))]).
Proof.
  split; [|split].
  - intros target. split; reflexivity.
  - intros t1 t2 rest. split; reflexivity.
  - intros. unfold launched, run. now rewrite run_httpx_eq.
Qed.

(** The payload read back line by line gives the targets in their order. *)
Lemma httpx_input_lines (t1 t2 : string) (rest : list string) :
  Forall one_line (t1 :: t2 :: rest) ->
  exists payload,
    httpx_input (t1 :: t2 :: rest) = Some payload
    /\ split nl_char payload = t1 :: t2 :: rest.
Proof.
  intros Hall. exists (join nl (t1 :: t2 :: rest)). split; [reflexivity|].
  apply split_join; [discriminate | exact Hall].
Qed.

(** ** Hash-type normalization of the password cracker *)

Lemma hashcat_mode_recognized (hash_type k v : string) :
  In (k, v) hash_mode_map -> lower hash_type = k -> hashcat_mode hash_type = v.
Proof.
  intros Hin Hlow. unfold hashcat_mode. rewrite Hlow.
  now apply hash_mode_map_lookup.
Qed.

Lemma hashcat_mode_unrecognized (hash_type : string) :
  ~ recognized hash_type -> hashcat_mode hash_type = hash_type.
Proof.
  intros Hnot. unfold hashcat_mode. apply dict_get_missing.
  intros k v Hin Heq. apply Hnot. now exists k, v.
Qed.

Lemma hashcat_launches json_dumps str_exc os hash_file wordlist hash_type :
  launched (run_hashcat json_dumps str_exc os hash_file wordlist hash_type)
  = [mkSpec ["hashcat"; "-m"; hashcat_mode hash_type; "--potfile-disable";
             "--outfile-format=2"; hash_file; wordlist] None None].
Proof. unfold launched, run. now rewrite run_hashcat_eq. Qed.

(** C6: the aliases md5, ntlm, sha256 and bcrypt become the modes 0, 1000,
    1400 and 3200; a string the alias table does not know, such as 1337, is
    the mode as it stands; and the mode is what follows [-m] in the command
    the adapter launches. *)
Theorem hashcat_alias_normalization :
  hashcat_mode "md5" = "0"
  /\ hashcat_mode "ntlm" = "1000"
  /\ hashcat_mode "sha256" = "1400"
  /\ hashcat_mode "bcrypt" = "3200"
  /\ hashcat_mode "1337" = "1337"
  /\ (forall hash_type,
        ~ recognized hash_type -> hashcat_mode hash_type = hash_type)
  /\ (forall json_dumps str_exc os hash_file wordlist hash_type,
        launched (run_hashcat json_dumps str_exc os hash_file wordlist hash_type)
        = [mkSpec ["hashcat"; "-m"; hashcat_mode hash_type;
                   "--potfile-disable"; "--outfile-format=2";
                   hash_file; wordlist] None None]).
Proof.
  repeat (split; [reflexivity|]).
  split.
  - exact hashcat_mode_unrecognized.
  - exact hashcat_launches.
Qed.

Lemma unrecognized_1337 : ~ recognized "1337".
Proof.
  intros (k & v & Hin & Hlow). simpl in Hlow. subst k.
  unfold hash_mode_map in Hin. simpl in Hin.
  repeat (destruct Hin as [Hin|Hin]; [discriminate Hin|]).
  exact Hin.
Qed.

Lemma hashcat_alias_normalization_witness :
  ~ recognized "1337" /\ hashcat_mode "1337" = "1337".
Proof.
  split; [exact unrecognized_1337|].
  destruct hashcat_alias_normalization as (_ & _ & _ & _ & _ & Hpass & _).
  apply (Hpass "1337"). exact unrecognized_1337.
Defined.

(** C10: the alias lookup ignores letter case, so that MD5 and Md5 both give
    mode 0; a string the table does not know is the mode with its casing
    untouched; and the envelope of a successful run carries the hash_type
    as it was given next to the mode derived from it. *)
Theorem hashcat_alias_case_insensitive :
  (forall hash_type k v,
      In (k, v) hash_mode_map -> lower hash_type = k ->
      hashcat_mode hash_type = v)
  /\ hashcat_mode "MD5" = "0"
  /\ hashcat_mode "Md5" = "0"
  /\ (forall hash_type,
        ~ recognized hash_type -> hashcat_mode hash_type = hash_type)
  /\ hashcat_mode "Whirlpool" = "Whirlpool"
  /\ (forall json_dumps str_exc os hash_file wordlist hash_type elapsed out err,
        os (mkSpec (hashcat_cmd hash_file wordlist hash_type) None None)
        = Exits elapsed 0 out err ->
        exists env,
          answer (run_hashcat json_dumps str_exc os hash_file wordlist hash_type)
          = Returns (json_dumps None env)
          /\ field "success" env = Some (JBool true)
          /\ field "hash_type" env = Some (JStr hash_type)
          /\ field "mode" env = Some (JStr (hashcat_mode hash_type))).
Proof.
  split; [exact hashcat_mode_recognized|].
  split; [reflexivity|]. split; [reflexivity|].
  split; [exact hashcat_mode_unrecognized|].
  split; [reflexivity|].
  intros json_dumps str_exc os hash_file wordlist hash_type elapsed out err Hos.
  exists (hashcat_envelope hash_file hash_type (hashcat_mode hash_type)
                           (mkCompleted 0 out err)).
  unfold answer, run. rewrite run_hashcat_eq. unfold unbounded_outcome.
  rewrite Hos. simpl. repeat split.
Qed.

Lemma hashcat_alias_case_insensitive_witness :
  In ("sha256", "1400") hash_mode_map
  /\ lower "SHA256" = "sha256"
  /\ hashcat_mode "SHA256" = "1400"
  /\ exists env,
      answer (run_hashcat PyRef.dumps PyRef.str_exc
                (fun _ => Exits 3 0 "Session..........: hashcat" EmptyString)
                "hashes.txt" "rockyou.txt" "SHA256")
      = Returns (PyRef.dumps None env)
      /\ field "success" env = Some (JBool true)
      /\ field "hash_type" env = Some (JStr "SHA256")
      /\ field "mode" env = Some (JStr (hashcat_mode "SHA256")).
Proof.
  destruct hashcat_alias_case_insensitive as (Hrec & _ & _ & _ & _ & Henv).
  assert (Hin : In ("sha256", "1400") hash_mode_map)
    by (unfold hash_mode_map; simpl; tauto).
  split; [exact Hin|]. split; [reflexivity|].
  split; [apply (Hrec "SHA256" "sha256" "1400" Hin eq_refl)|].
  apply (Henv PyRef.dumps PyRef.str_exc _ "hashes.txt" "rockyou.txt" "SHA256"
              3 "Session..........: hashcat" EmptyString).
  reflexivity.
Defined.

(** ** Tolerance of the JSON-lines parse *)

Section ParseFacts.

Variable json_loads : string -> json + exn.









End ParseFacts.

(** The subdomain enumerator on a tool that prints two records and an empty
    line: both records, and a count of two. *)
Example subfinder_two_records :
  answer (run_subfinder PyRef.dumps PyRef.loads PyRef.str_exc
            (fun _ => Exits 2 0 (Sample.line1 ++ nl ++ Sample.line2 ++ nl ++ nl) EmptyString)
            "example.com" false)
  = Returns (PyRef.dumps (Some 2) (JDict [
      ("success", JBool true);
      ("domain", JStr "example.com");
      ("recursive", JBool false);
      ("subdomains", JList [Sample.record1; Sample.record2]);
      ("count", JInt 2)])).
Proof. reflexivity. Qed.

(** ** Classification of a wrong httpx binary *)

(** C8, as stated, fails: an error text that mentions "pip install" alone
    is reported as a generic execution failure. *)
Lemma pip_install_alone_is_generic_failure :
  answer (run_httpx PyRef.dumps PyRef.loads PyRef.str_exc
            (Sample.fails_with "error: run pip install click first")
            ["https://example.com"] None)
  = Returns (PyRef.dumps (Some 2) (JDict [
      ("success", JBool false);
      ("error", JStr "httpx execution failed: error: run pip install click first");
      ("stderr", JStr "error: run pip install click first");
      ("stdout", JStr EmptyString)]))
  /\ contains "pip install"
       (lower "error: run pip install click first") = true.
Proof. split; reflexivity. Qed.

(** C8, amended: when httpx exits with a non-zero status and the lower-cased
    concatenation of its standard error, its standard output and the text of
    the exception contains "command line client could not run", "required
    dependencies" or "pip install 'httpx[cli]'", the envelope returned is the
    wrong-binary one, whose message names projectdiscovery httpx as the tool
    to install, and not the generic execution failure. *)
Theorem httpx_wrong_binary
        (json_dumps : option nat -> json -> string)
        (json_loads : string -> json + exn)
        (str_exc : exn -> string)
        (os : ProcessSpec -> behaviour)
        (target : string) (targets : list string)
        (status_codes : option (list (option Z)))
        (elapsed : nat) (rc : Z) (out err : string) :
  let urls := target :: targets in
  let e := CalledProcessError rc (httpx_cmd urls status_codes)
                              (Some out) (Some err) in
  let text := lower (err ++ out ++ str_exc e)%string in
  os (httpx_spec urls status_codes) = Exits elapsed rc out err ->
  elapsed <= httpx_timeout urls ->
  rc <> 0%Z ->
  contains "command line client could not run" text = true
  \/ contains "required dependencies" text = true
  \/ contains "pip install 'httpx[cli]'" text = true ->
  answer (run_httpx json_dumps json_loads str_exc os urls status_codes)
  = Returns (json_dumps (Some 2) (JDict [
      ("success", JBool false);
      ("error", JStr wrong_binary_message);
      ("stderr", JStr err);
      ("stdout", JStr out)]))
  /\ contains "install projectdiscovery httpx" wrong_binary_message = true.
Proof.
  intros urls e text Hos Hin Hrc Hsig. subst urls.
  split; [|reflexivity].
  unfold answer, run. rewrite run_httpx_eq.
  unfold httpx_outcome. rewrite Hos.
  apply Nat.ltb_ge in Hin. rewrite Hin.
  apply Z.eqb_neq in Hrc. rewrite Hrc.
  cbv beta iota delta [httpx_failure httpx_called_process_error].
  fold e. unfold httpx_error_lower.
  rewrite !or_else_some_empty. fold text.
  assert (Hw : is_wrong_binary text = true).
  { unfold is_wrong_binary, wrong_binary_phrases. simpl existsb.
    destruct Hsig as [H|[H|H]]; rewrite H;
      rewrite ?orb_true_r; reflexivity. }
  now rewrite Hw.
Qed.

Lemma httpx_wrong_binary_witness :
  answer (run_httpx PyRef.dumps PyRef.loads PyRef.str_exc
            (Sample.fails_with
               "Make sure you've installed everything with: pip install 'httpx[cli]'")
            ["https://example.com"] None)
  = Returns (PyRef.dumps (Some 2) (JDict [
      ("success", JBool false);
      ("error", JStr wrong_binary_message);
      ("stderr", JStr "Make sure you've installed everything with: pip install 'httpx[cli]'");
      ("stdout", JStr EmptyString)])).
Proof.
  apply (httpx_wrong_binary PyRef.dumps PyRef.loads PyRef.str_exc
           (Sample.fails_with
              "Make sure you've installed everything with: pip install 'httpx[cli]'")
           "https://example.com" [] None 1 1 EmptyString
           "Make sure you've installed everything with: pip install 'httpx[cli]'").
  - reflexivity.
  - unfold httpx_timeout. simpl. lia.
  - discriminate.
  - right. right. reflexivity.
Defined.

(** ** The shape of what an operation returns *)

Section Shapes.

Variable json_dumps : option nat -> json -> string.
Variable json_loads : string -> json + exn.
Variable str_exc : exn -> string.
Variable os : ProcessSpec -> behaviour.

Lemma plain_failure_success (e : exn) :
  field "success" (plain_failure str_exc e) = Some (JBool false).
Proof. destruct e; reflexivity. Qed.

Lemma httpx_failure_success (e : exn) :
  field "success" (httpx_failure str_exc e) = Some (JBool false).
Proof.
  destruct e; try reflexivity.
  unfold httpx_failure, httpx_called_process_error.
  destruct (is_wrong_binary _); [reflexivity|].
  destruct (is_not_found _); reflexivity.
Qed.

(** The four adapters that hand the output on as it is. *)
Lemma shaped_unbounded (c : call) (spec : ProcessSpec)
      (envelope : CompletedProcess -> json) :
  spec_of c = Some spec ->
  timeout spec = None ->
  (forall r, field "success" (envelope r) = Some (JBool true)) ->
  (forall r, count_ok c (envelope r)) ->
  shaped json_dumps os c (unbounded_outcome json_dumps str_exc os spec
              (fun r => Returns (json_dumps None (envelope r)))).
Proof.
  intros Hspec Hnone Hsucc Hcount. unfold unbounded_outcome.
  destruct (os spec) as [elapsed rc out err| |e] eqn:Hos.
  - destruct (rc =? 0)%Z.
    + now apply shaped_success.
    + apply shaped_failure, plain_failure_success.
  - now apply shaped_blocked with spec.
  - apply shaped_failure, plain_failure_success.
Qed.

Lemma shaped_subfinder domain recursive :
  shaped json_dumps os (subfinder_wrapper domain recursive)
         (subfinder_outcome json_dumps json_loads str_exc os domain recursive).
Proof.
  unfold subfinder_outcome, unbounded_outcome.
  destruct (os _) as [elapsed rc out err| |e] eqn:Hos.
  - destruct (rc =? 0)%Z.
    + pose proof (parse_outcome_not_blocks json_loads out) as Hnb.
      simpl. destruct (parse_outcome json_loads out) as [l|e|].
      * apply shaped_success; [reflexivity|].
        exists l. split; reflexivity.
      * apply shaped_failure, plain_failure_success.
      * now elim Hnb.
    + apply shaped_failure, plain_failure_success.
  - now apply shaped_blocked
      with (mkSpec (subfinder_cmd domain recursive) None None).
  - apply shaped_failure, plain_failure_success.
Qed.

Lemma shaped_httpx urls status_codes :
  shaped json_dumps os (httpx_wrapper urls status_codes)
         (httpx_outcome json_dumps json_loads str_exc os urls status_codes).
Proof.
  unfold httpx_outcome.
  destruct (os _) as [elapsed rc out err| |e].
  - destruct (httpx_timeout urls <? elapsed)%nat.
    { now apply shaped_failure. }
    destruct (rc =? 0)%Z.
    + pose proof (parse_outcome_not_blocks json_loads out) as Hnb.
      destruct (parse_outcome json_loads out) as [l|e|].
      * apply shaped_success; [reflexivity|].
        exists l. split; reflexivity.
      * apply shaped_failure, httpx_failure_success.
      * now elim Hnb.
    + apply shaped_failure, httpx_failure_success.
  - now apply shaped_failure.
  - destruct e; try (apply shaped_failure, httpx_failure_success).
    now apply shaped_failure.
Qed.

Lemma shaped_outcome (c : call) :
  shaped json_dumps os c (outcome_of json_dumps json_loads str_exc os c).
Proof.
  destruct c as [target ports scan_type|url risk level|url crawl
                |hash_file wordlist hash_type|domain recursive
                |urls status_codes]; simpl.
  - apply shaped_unbounded; try reflexivity.
    intros r. split; [reflexivity|]. now eexists.
  - apply shaped_unbounded; try reflexivity.
    intros r. split; [reflexivity|]. now eexists.
  - apply shaped_unbounded; try reflexivity.
    intros r. split; [reflexivity|]. now eexists.
  - apply shaped_unbounded; try reflexivity.
    intros r. split; [reflexivity|]. now eexists.
  - apply shaped_subfinder.
  - destruct urls as [|target targets].
    + now apply shaped_failure.
    + apply shaped_httpx.
Qed.

Lemma launched_dispatch (c : call) :
  launched (dispatch json_dumps json_loads str_exc os c) = launches c.
Proof. unfold launched, run. now rewrite dispatch_eq. Qed.

Lemma answer_dispatch (c : call) :
  answer (dispatch json_dumps json_loads str_exc os c)
  = outcome_of json_dumps json_loads str_exc os c.
Proof. unfold answer, run. now rewrite dispatch_eq. Qed.

End Shapes.

(** ** Time bound and timeout report *)

(** C1, as stated, fails: the nmap adapter hands [subprocess.run] no time
    limit, and on a scan that never ends it gives no answer at all, so no
    timeout envelope either. *)
Lemma nmap_has_no_time_bound :
  launched (run_nmap PyRef.dumps PyRef.str_exc Sample.hangs
              "scanme.nmap.org" None (Some "sV"))
  = [mkSpec ["nmap"; "-oX"; "-"; "scanme.nmap.org"; "-sV"] None None]
  /\ timeout (mkSpec ["nmap"; "-oX"; "-"; "scanme.nmap.org"; "-sV"] None None)
     = None
  /\ answer (run_nmap PyRef.dumps PyRef.str_exc Sample.hangs
               "scanme.nmap.org" None (Some "sV"))
     = Blocks.
Proof. repeat split. Qed.

(** C1, amended: of the six adapters only the HTTP probe bounds its process
    in time. Its process runs under the limit [httpx_timeout]; when the
    process is still running at the limit the adapter returns an envelope
    with success=false, an error text that says the scan timed out and
    gives the limit, the target list and the limit in seconds. The nmap,
    sqlmap, xsstrike, hashcat and subfinder adapters set no limit. *)
Theorem httpx_timeout_report
        (json_dumps : option nat -> json -> string)
        (json_loads : string -> json + exn)
        (str_exc : exn -> string)
        (os : ProcessSpec -> behaviour)
        (target : string) (targets : list string)
        (status_codes : option (list (option Z))) :
  let urls := target :: targets in
  let bound := httpx_timeout urls in
  exceeds bound (os (httpx_spec urls status_codes)) ->
  (launched (run_httpx json_dumps json_loads str_exc os urls status_codes)
   = [mkSpec (httpx_cmd urls status_codes) (httpx_input urls) (Some bound)])
  /\ (exists env message,
        answer (run_httpx json_dumps json_loads str_exc os urls status_codes)
        = Returns (json_dumps (Some 2) env)
        /\ field "success" env = Some (JBool false)
        /\ field "error" env = Some (JStr message)
        /\ contains "timed out" message = true
        /\ contains (str_nat bound) message = true
        /\ field "targets" env = Some (JStrs urls)
        /\ field "timeout_seconds" env = Some (JNat bound))
  /\ (forall c spec,
        spec_of c = Some spec ->
        timeout spec = match c with
                       | httpx_wrapper urls' _ => Some (httpx_timeout urls')
                       | _ => None
                       end).
Proof.
  intros urls bound Hex. subst urls. split; [|split].
  - unfold launched, run. now rewrite run_httpx_eq.
  - exists (httpx_timeout_envelope (target :: targets)
              (httpx_cmd (target :: targets) status_codes) bound).
    eexists. split; [|split; [reflexivity|split; [reflexivity|]]].
    + unfold answer, run. rewrite run_httpx_eq. unfold httpx_outcome.
      fold bound.
      destruct (os _) as [elapsed rc out err| |e]; simpl in Hex.
      * apply Nat.ltb_lt in Hex. now rewrite Hex.
      * reflexivity.
      * contradiction.
    + split; [|split; [|split; reflexivity]].
      * apply (contains_intro "timed out" "httpx scan ").
      * apply (contains_intro (str_nat bound) "httpx scan timed out after ").
  - intros c spec Hspec.
    destruct c as [? ? ?|? ? ?|? ?|? ? ?|? ?|urls' sc]; simpl in Hspec;
      try (injection Hspec as <-; reflexivity).
    destruct urls'; [discriminate|]. now injection Hspec as <-.
Qed.

Lemma httpx_timeout_report_witness :
  exceeds 35 (Sample.hangs (httpx_spec ["https://example.com"] None))
  /\ exists env message,
      answer (run_httpx PyRef.dumps PyRef.loads PyRef.str_exc Sample.hangs
                        ["https://example.com"] None)
      = Returns (PyRef.dumps (Some 2) env)
      /\ field "success" env = Some (JBool false)
      /\ field "error" env = Some (JStr message)
      /\ contains "timed out" message = true
      /\ contains (str_nat 35) message = true
      /\ field "targets" env = Some (JStrs ["https://example.com"])
      /\ field "timeout_seconds" env = Some (JNat 35).
Proof.
  split; [exact I|].
  apply (httpx_timeout_report PyRef.dumps PyRef.loads PyRef.str_exc
           Sample.hangs "https://example.com" [] None).
  exact I.
Defined.

(** ** The adapters as error boundary *)

(** C2, as stated, fails: the hashcat adapter waits without limit, and on a
    run that never ends the call returns nothing. *)
Lemma hashcat_never_returns_on_hang :
  answer (dispatch PyRef.dumps PyRef.loads PyRef.str_exc Sample.hangs
            (hashcat_wrapper "hashes.txt" "rockyou.txt" "md5"))
  = Blocks
  /\ forall s,
      answer (dispatch PyRef.dumps PyRef.loads PyRef.str_exc Sample.hangs
                (hashcat_wrapper "hashes.txt" "rockyou.txt" "md5"))
      <> Returns s.
Proof. split; [reflexivity | discriminate]. Qed.

(** C2, amended: no operation lets an exception out, whatever its process
    does; each launches at most one process; and whenever the process of an
    adapter without time limit comes to an end (the HTTP probe needs no such
    condition), the call returns one envelope text, with success true or
    false. *)
Theorem adapters_return_one_envelope
        (json_dumps : option nat -> json -> string)
        (json_loads : string -> json + exn)
        (str_exc : exn -> string)
        (os : ProcessSpec -> behaviour)
        (c : call) :
  (forall e, answer (dispatch json_dumps json_loads str_exc os c) <> Raises e)
  /\ List.length (launched (dispatch json_dumps json_loads str_exc os c)) <= 1
  /\ ((forall spec, spec_of c = Some spec -> timeout spec = None ->
                    ends (os spec)) ->
      exists s,
        answer (dispatch json_dumps json_loads str_exc os c) = Returns s
        /\ is_envelope json_dumps s).
Proof.
  rewrite answer_dispatch, launched_dispatch.
  pose proof (shaped_outcome json_dumps json_loads str_exc os c) as Hshape.
  split; [|split].
  - intros e He. rewrite He in Hshape. inversion Hshape.
  - unfold launches. destruct (spec_of c); simpl; lia.
  - intros Hends.
    inversion Hshape as [indent env Hsucc Hcount Heq
                        |indent env Hfail Heq
                        |spec Hspec Hnone Hhang Heq].
    + eexists. split; [reflexivity|]. now exists indent, env, true.
    + eexists. split; [reflexivity|]. now exists indent, env, false.
    + specialize (Hends spec Hspec Hnone). rewrite Hhang in Hends.
      contradiction.
Qed.

Lemma adapters_return_one_envelope_witness :
  exists s,
    answer (dispatch PyRef.dumps PyRef.loads PyRef.str_exc
              (Sample.fails_with "hashcat: hashes.txt: No such file or directory")
              (hashcat_wrapper "hashes.txt" "rockyou.txt" "md5"))
    = Returns s
    /\ is_envelope PyRef.dumps s.
Proof.
  apply (adapters_return_one_envelope PyRef.dumps PyRef.loads PyRef.str_exc
           (Sample.fails_with "hashcat: hashes.txt: No such file or directory")
           (hashcat_wrapper "hashes.txt" "rockyou.txt" "md5")).
  intros spec _ _. exact I.
Defined.

(** ** Missing required parameters *)

(** C4, as stated, fails: the subdomain enumerator does not look at its
    domain; given the empty string it launches subfinder all the same, and
    here reports success. *)
Lemma subfinder_empty_domain_is_run :
  run (run_subfinder PyRef.dumps PyRef.loads PyRef.str_exc Sample.silent
                     EmptyString false)
  = (Returns (PyRef.dumps (Some 2) (JDict [
       ("success", JBool true);
       ("domain", JStr EmptyString);
       ("recursive", JBool false);
       ("subdomains", JList []);
       ("count", JInt 0)])),
     [mkSpec ["subfinder"; "-d"; EmptyString; "-json"] None None]).
Proof. reflexivity. Qed.

(** C4, amended: the HTTP probe, given an empty target list, returns at once
    and without launching any process an envelope with success=false and the
    error text "No targets provided. Please provide at least one URL or IP
    address."; it is the only operation that checks its required parameter:
    every other call launches its process whatever its arguments are. *)
Theorem httpx_rejects_empty_targets
        (json_dumps : option nat -> json -> string)
        (json_loads : string -> json + exn)
        (str_exc : exn -> string)
        (os : ProcessSpec -> behaviour)
        (status_codes : option (list (option Z))) :
  run (run_httpx json_dumps json_loads str_exc os [] status_codes)
  = (Returns (json_dumps (Some 2) no_targets_envelope), [])
  /\ field "success" no_targets_envelope = Some (JBool false)
  /\ field "error" no_targets_envelope
     = Some (JStr "No targets provided. Please provide at least one URL or IP address.")
  /\ (forall c,
        launched (dispatch json_dumps json_loads str_exc os c) = launches c)
  /\ (forall c,
        launches c = [] <-> exists sc, c = httpx_wrapper [] sc).
Proof.
  split; [reflexivity|]. split; [reflexivity|]. split; [reflexivity|].
  split; [apply launched_dispatch|].
  intros c. split.
  - destruct c as [? ? ?|? ? ?|? ?|? ? ?|? ?|urls sc]; try discriminate.
    destruct urls; [now exists sc | discriminate].
  - intros [sc ->]. reflexivity.
Qed.

(** ** Successful envelopes and their count *)

(** C9: whatever text an operation returns is the text of an envelope with a
    boolean success member; when that member is true, the envelope of the
    subdomain enumerator and of the HTTP probe holds its list (subdomains,
    results) together with a count equal to the length of the list, and the
    envelope of every other operation holds a results object and no count. *)
Theorem successful_envelope_count
        (json_dumps : option nat -> json -> string)
        (json_loads : string -> json + exn)
        (str_exc : exn -> string)
        (os : ProcessSpec -> behaviour)
        (c : call) (s : string) :
  answer (dispatch json_dumps json_loads str_exc os c) = Returns s ->
  exists indent env b,
    s = json_dumps indent env
    /\ field "success" env = Some (JBool b)
    /\ (b = true ->
        match c with
        | subfinder_wrapper _ _ =>
            exists l, field "subdomains" env = Some (JList l)
                      /\ field "count" env = Some (JInt (Z.of_nat (List.length l)))
        | httpx_wrapper _ _ =>
            exists l, field "results" env = Some (JList l)
                      /\ field "count" env = Some (JInt (Z.of_nat (List.length l)))
        | _ =>
            field "count" env = None
            /\ exists kv, field "results" env = Some (JDict kv)
        end).
Proof.
  rewrite answer_dispatch. intros Hret.
  pose proof (shaped_outcome json_dumps json_loads str_exc os c) as Hshape.
  rewrite Hret in Hshape.
  inversion Hshape as [indent env Hsucc Hcount Heq|indent env Hfail Heq|];
    subst.
  - exists indent, env, true. split; [reflexivity|]. split; [assumption|].
    intros _. destruct c; exact Hcount.
  - exists indent, env, false. split; [reflexivity|]. split; [assumption|].
    discriminate.
Qed.

Lemma successful_envelope_count_witness :
  exists indent env b,
    PyRef.dumps (Some 2)
      (subfinder_envelope "example.com" false
         [Sample.record1; Sample.record2])
    = PyRef.dumps indent env
    /\ field "success" env = Some (JBool b)
    /\ (b = true ->
        exists l, field "subdomains" env = Some (JList l)
                  /\ field "count" env = Some (JInt (Z.of_nat (List.length l)))).
Proof.
  apply (successful_envelope_count PyRef.dumps PyRef.loads PyRef.str_exc
           Sample.prints_records (subfinder_wrapper "example.com" false)).
  reflexivity.
Defined.


(** * Further properties *)

(** ** Failure envelopes of the plain adapters *)

(** A non-zero exit status of nmap, sqlmap, xsstrike, hashcat or subfinder
    gives an envelope of three members: success=false, the text of the
    exception, and the captured standard error. What the tool wrote on
    standard output is not reported. *)
Theorem plain_nonzero_exit
        (json_dumps : option nat -> json -> string)
        (json_loads : string -> json + exn)
        (str_exc : exn -> string)
        (os : ProcessSpec -> behaviour)
        (c : call) (spec : ProcessSpec)
        (elapsed : nat) (rc : Z) (out err : string) :
  plain c ->
  spec_of c = Some spec ->
  os spec = Exits elapsed rc out err ->
  rc <> 0%Z ->
  run (dispatch json_dumps json_loads str_exc os c)
  = (Returns (json_dumps None (JDict [
       ("success", JBool false);
       ("error", JStr (str_exc (CalledProcessError rc (args spec)
                                  (Some out) (Some err))));
       ("stderr", JStr err)])),
     [spec]).
Proof.
  intros Hplain Hspec Hos Hrc. apply Z.eqb_neq in Hrc.
  unfold run. rewrite dispatch_eq. unfold launches. rewrite Hspec.
  f_equal.
  destruct c as [? ? ?|? ? ?|? ?|? ? ?|? ?|? ?]; try contradiction;
    simpl in Hspec; injection Hspec as <-; simpl;
    unfold subfinder_outcome, unbounded_outcome; rewrite Hos, Hrc;
    reflexivity.
Qed.

Lemma plain_nonzero_exit_witness :
  run (dispatch PyRef.dumps PyRef.loads PyRef.str_exc
         (Sample.fails_with "Failed to resolve scanme.invalid")
         (nmap_wrapper "scanme.invalid" None (Some "sV")))
  = (Returns (PyRef.dumps None (JDict [
       ("success", JBool false);
       ("error", JStr "Command '['nmap', '-oX', '-', 'scanme.invalid', '-sV']' returned non-zero exit status 1.");
       ("stderr", JStr "Failed to resolve scanme.invalid")])),
     [mkSpec ["nmap"; "-oX"; "-"; "scanme.invalid"; "-sV"] None None]).
Proof.
  apply (plain_nonzero_exit PyRef.dumps PyRef.loads PyRef.str_exc
           (Sample.fails_with "Failed to resolve scanme.invalid")
           (nmap_wrapper "scanme.invalid" None (Some "sV"))
           (mkSpec ["nmap"; "-oX"; "-"; "scanme.invalid"; "-sV"] None None)
           1 1 EmptyString "Failed to resolve scanme.invalid").
  - exact I.
  - reflexivity.
  - reflexivity.
  - discriminate.
Defined.

(** When the program of a plain adapter cannot be started (the binary is
    missing, or any exception other than a non-zero exit is raised), the
    envelope has two members only, success=false and the text of the
    exception as the library words it: no stderr member and no hint on how
    to install the tool. *)
Theorem plain_launch_failure
        (json_dumps : option nat -> json -> string)
        (json_loads : string -> json + exn)
        (str_exc : exn -> string)
        (os : ProcessSpec -> behaviour)
        (c : call) (spec : ProcessSpec) (e : exn) :
  plain c ->
  spec_of c = Some spec ->
  os spec = LaunchFails e ->
  not_called_process_error e ->
  run (dispatch json_dumps json_loads str_exc os c)
  = (Returns (json_dumps None (JDict [
       ("success", JBool false);
       ("error", JStr (str_exc e))])),
     [spec]).
Proof.
  intros Hplain Hspec Hos He.
  unfold run. rewrite dispatch_eq. unfold launches. rewrite Hspec.
  f_equal.
  destruct c as [? ? ?|? ? ?|? ?|? ? ?|? ?|? ?]; try contradiction;
    simpl in Hspec; injection Hspec as <-; simpl;
    unfold subfinder_outcome, unbounded_outcome; rewrite Hos;
    destruct e; try contradiction; reflexivity.
Qed.

Lemma plain_launch_failure_witness :
  run (dispatch PyRef.dumps PyRef.loads PyRef.str_exc
         (fun _ => LaunchFails (FileNotFoundError
                      "[Errno 2] No such file or directory: 'sqlmap'"))
         (sqlmap_wrapper "http://testphp.vulnweb.com/?id=1" (Some 1%Z) (Some 1%Z)))
  = (Returns (PyRef.dumps None (JDict [
       ("success", JBool false);
       ("error", JStr "[Errno 2] No such file or directory: 'sqlmap'")])),
     [mkSpec ["sqlmap"; "-u"; "http://testphp.vulnweb.com/?id=1"; "--batch";
              "--output-dir=/tmp/sqlmap"; "--risk"; "1"; "--level"; "1"]
             None None]).
Proof.
  apply (plain_launch_failure PyRef.dumps PyRef.loads PyRef.str_exc
           (fun _ => LaunchFails (FileNotFoundError
                        "[Errno 2] No such file or directory: 'sqlmap'"))
           (sqlmap_wrapper "http://testphp.vulnweb.com/?id=1" (Some 1%Z) (Some 1%Z))
           _ (FileNotFoundError "[Errno 2] No such file or directory: 'sqlmap'")).
  - exact I.
  - reflexivity.
  - reflexivity.
  - exact I.
Defined.

(** ** Failure envelopes of the HTTP probe *)

(** When httpx cannot be found at launch, the envelope is success=false with
    the fixed advice to install projectdiscovery httpx, whatever the
    operating system's message says; it has no other member. *)
Theorem httpx_missing_binary
        (json_dumps : option nat -> json -> string)
        (json_loads : string -> json + exn)
        (str_exc : exn -> string)
        (os : ProcessSpec -> behaviour)
        (target : string) (targets : list string)
        (status_codes : option (list (option Z))) (msg : string) :
  os (httpx_spec (target :: targets) status_codes)
  = LaunchFails (FileNotFoundError msg) ->
  answer (run_httpx json_dumps json_loads str_exc os
                    (target :: targets) status_codes)
  = Returns (json_dumps (Some 2) (JDict [
      ("success", JBool false);
      ("error", JStr "httpx tool not found. Please install projectdiscovery httpx: go install -v github.com/projectdiscovery/httpx/cmd/httpx@latest")])).
Proof.
  intros Hos. unfold answer, run. rewrite run_httpx_eq.
  unfold httpx_outcome. now rewrite Hos.
Qed.

Lemma httpx_missing_binary_witness :
  answer (run_httpx PyRef.dumps PyRef.loads PyRef.str_exc
            (fun _ => LaunchFails (FileNotFoundError
                         "[Errno 2] No such file or directory: 'httpx'"))
            ["https://example.com"; "https://example.org"] None)
  = Returns (PyRef.dumps (Some 2) (JDict [
      ("success", JBool false);
      ("error", JStr "httpx tool not found. Please install projectdiscovery httpx: go install -v github.com/projectdiscovery/httpx/cmd/httpx@latest")])).
Proof.
  apply (httpx_missing_binary PyRef.dumps PyRef.loads PyRef.str_exc _
           "https://example.com" ["https://example.org"] None
           "[Errno 2] No such file or directory: 'httpx'").
  reflexivity.
Defined.

(** A non-zero exit of httpx whose lower-cased error text holds none of the
    wrong-binary phrases but mentions "no such file" or "not found" is
    reported with the same install advice, together with the captured
    standard error and standard output. *)
Theorem httpx_not_found_by_output
        (json_dumps : option nat -> json -> string)
        (json_loads : string -> json + exn)
        (str_exc : exn -> string)
        (os : ProcessSpec -> behaviour)
        (target : string) (targets : list string)
        (status_codes : option (list (option Z)))
        (elapsed : nat) (rc : Z) (out err : string) :
  let urls := target :: targets in
  let e := CalledProcessError rc (httpx_cmd urls status_codes)
                              (Some out) (Some err) in
  let text := lower (err ++ out ++ str_exc e)%string in
  os (httpx_spec urls status_codes) = Exits elapsed rc out err ->
  elapsed <= httpx_timeout urls ->
  rc <> 0%Z ->
  is_wrong_binary text = false ->
  contains "no such file" text = true \/ contains "not found" text = true ->
  answer (run_httpx json_dumps json_loads str_exc os urls status_codes)
  = Returns (json_dumps (Some 2) (JDict [
      ("success", JBool false);
      ("error", JStr not_found_message);
      ("stderr", JStr err);
      ("stdout", JStr out)])).
Proof.
  intros urls e text Hos Hin Hrc Hwrong Hnf. subst urls.
  unfold answer, run. rewrite run_httpx_eq.
  unfold httpx_outcome. rewrite Hos.
  apply Nat.ltb_ge in Hin. rewrite Hin.
  apply Z.eqb_neq in Hrc. rewrite Hrc.
  cbv beta iota delta [httpx_failure httpx_called_process_error].
  fold e. unfold httpx_error_lower.
  rewrite !or_else_some_empty. fold text. rewrite Hwrong.
  assert (Hfound : is_not_found text = true).
  { unfold is_not_found. destruct Hnf as [H|H]; rewrite H;
      rewrite ?orb_true_r; reflexivity. }
  now rewrite Hfound.
Qed.

Lemma httpx_not_found_by_output_witness :
  answer (run_httpx PyRef.dumps PyRef.loads PyRef.str_exc
            (Sample.fails_with "/bin/sh: httpx: command not found")
            ["https://example.com"] None)
  = Returns (PyRef.dumps (Some 2) (JDict [
      ("success", JBool false);
      ("error", JStr not_found_message);
      ("stderr", JStr "/bin/sh: httpx: command not found");
      ("stdout", JStr EmptyString)])).
Proof.
  apply (httpx_not_found_by_output PyRef.dumps PyRef.loads PyRef.str_exc
           (Sample.fails_with "/bin/sh: httpx: command not found")
           "https://example.com" [] None 1 1 EmptyString
           "/bin/sh: httpx: command not found").
  - reflexivity.
  - unfold httpx_timeout. simpl. lia.
  - discriminate.
  - reflexivity.
  - right. reflexivity.
Defined.

(** Any other non-zero exit of httpx is reported as "httpx execution failed:"
    followed by the captured standard error, or by the text of the exception
    when nothing was written on standard error; both captured streams are
    part of the envelope. *)
Theorem httpx_generic_failure
        (json_dumps : option nat -> json -> string)
        (json_loads : string -> json + exn)
        (str_exc : exn -> string)
        (os : ProcessSpec -> behaviour)
        (target : string) (targets : list string)
        (status_codes : option (list (option Z)))
        (elapsed : nat) (rc : Z) (out err : string) :
  let urls := target :: targets in
  let e := CalledProcessError rc (httpx_cmd urls status_codes)
                              (Some out) (Some err) in
  let text := lower (err ++ out ++ str_exc e)%string in
  os (httpx_spec urls status_codes) = Exits elapsed rc out err ->
  elapsed <= httpx_timeout urls ->
  rc <> 0%Z ->
  is_wrong_binary text = false ->
  is_not_found text = false ->
  answer (run_httpx json_dumps json_loads str_exc os urls status_codes)
  = Returns (json_dumps (Some 2) (JDict [
      ("success", JBool false);
      ("error", JStr ("httpx execution failed: "
                      ++ match err with
                         | EmptyString => str_exc e
                         | _ => err
                         end)%string);
      ("stderr", JStr err);
      ("stdout", JStr out)])).
Proof.
  intros urls e text Hos Hin Hrc Hwrong Hnf. subst urls.
  unfold answer, run. rewrite run_httpx_eq.
  unfold httpx_outcome. rewrite Hos.
  apply Nat.ltb_ge in Hin. rewrite Hin.
  apply Z.eqb_neq in Hrc. rewrite Hrc.
  cbv beta iota delta [httpx_failure httpx_called_process_error].
  fold e. unfold httpx_error_lower.
  rewrite !or_else_some_empty. fold text. rewrite Hwrong, Hnf.
  destruct err; reflexivity.
Qed.

Lemma httpx_generic_failure_witness :
  answer (run_httpx PyRef.dumps PyRef.loads PyRef.str_exc
            (Sample.fails_with EmptyString)
            ["https://example.com"] None)
  = Returns (PyRef.dumps (Some 2) (JDict [
      ("success", JBool false);
      ("error", JStr "httpx execution failed: Command '['httpx', '-json', '-silent', '-timeout', '10', '-u', 'https://example.com']' returned non-zero exit status 1.");
      ("stderr", JStr EmptyString);
      ("stdout", JStr EmptyString)])).
Proof.
  apply (httpx_generic_failure PyRef.dumps PyRef.loads PyRef.str_exc
           (Sample.fails_with EmptyString)
           "https://example.com" [] None 1 1 EmptyString EmptyString).
  - reflexivity.
  - unfold httpx_timeout. simpl. lia.
  - discriminate.
  - reflexivity.
  - reflexivity.
Defined.

(** ** More on the JSON-lines parse *)

Section ParseEdges.

Variable json_loads : string -> json + exn.

(** Lines that are passed over quietly only move the accumulator. *)
Lemma json_lines_skip_tolerated (pre rest : list string) :
  forall acc t,
    Forall (tolerated json_loads) pre ->
    json_lines json_loads (pre ++ rest) acc t
    = json_lines json_loads rest (acc ++ records json_loads pre) t.
Proof.
  induction pre as [|line pre IH]; intros acc t Hall.
  - simpl. now rewrite app_nil_r.
  - inversion Hall as [|? ? Hline Hpre]; subst.
    simpl. destruct (truthy (strip line)) eqn:Hblank.
    + specialize (Hline Hblank).
      unfold bind at 1. unfold try_except, bind, lift.
      destruct (json_loads line) as [data|e]; simpl.
      * rewrite IH by assumption. now rewrite <- app_assoc.
      * destruct e; try contradiction. simpl. now apply IH.
    + now apply IH.
Qed.

(** The first line on which [json.loads] raises something else than
    [JSONDecodeError] ends the loop with that exception. *)
Lemma json_lines_abort (pre post : list string) (bad : string) (e : exn) :
  forall acc t,
    Forall (tolerated json_loads) pre ->
    truthy (strip bad) = true ->
    json_loads bad = inr e ->
    (forall msg, e <> JSONDecodeError msg) ->
    json_lines json_loads (pre ++ bad :: post) acc t = (Raises e, t).
Proof.
  intros acc t Hpre Hbad Hload Hother.
  rewrite json_lines_skip_tolerated by assumption.
  simpl. rewrite Hbad.
  unfold bind at 1. unfold try_except, bind, lift. rewrite Hload. simpl.
  destruct e; try reflexivity. now elim (Hother msg).
Qed.


End ParseEdges.

(** When [json.loads] raises, on some non-blank line, an exception that is
    not [JSONDecodeError] (a nesting too deep, an integer too long), the
    parse stops there and the records read so far are given up: the
    subdomain enumerator returns success=false with the text of the
    exception, the HTTP probe returns success=false with "Unexpected error:"
    before that text. *)
Theorem parse_aborts_on_other_exception
        (json_dumps : option nat -> json -> string)
        (json_loads : string -> json + exn)
        (str_exc : exn -> string)
        (out : string) (pre post : list string) (bad msg : string) :
  output_lines out = pre ++ bad :: post ->
  Forall (tolerated json_loads) pre ->
  truthy (strip bad) = true ->
  json_loads bad = inr (OtherException msg) ->
  (forall os domain recursive elapsed err,
      os (mkSpec (subfinder_cmd domain recursive) None None)
      = Exits elapsed 0 out err ->
      answer (run_subfinder json_dumps json_loads str_exc os domain recursive)
      = Returns (json_dumps None (JDict [
          ("success", JBool false);
          ("error", JStr (str_exc (OtherException msg)))])))
  /\ (forall os target targets status_codes elapsed err,
        os (httpx_spec (target :: targets) status_codes)
        = Exits elapsed 0 out err ->
        elapsed <= httpx_timeout (target :: targets) ->
        answer (run_httpx json_dumps json_loads str_exc os
                          (target :: targets) status_codes)
        = Returns (json_dumps (Some 2) (JDict [
            ("success", JBool false);
            ("error", JStr ("Unexpected error: "
                            ++ str_exc (OtherException msg))%string)]))).
Proof.
  intros Hlines Hpre Hbad Hload.
  assert (Hparse : parse_outcome json_loads out = Raises (OtherException msg)).
  { unfold parse_outcome. rewrite Hlines.
    rewrite (json_lines_abort json_loads pre post bad (OtherException msg));
      try assumption; [reflexivity | discriminate]. }
  split.
  - intros os domain recursive elapsed err Hos.
    unfold answer, run. rewrite run_subfinder_eq.
    unfold subfinder_outcome, unbounded_outcome. rewrite Hos. simpl.
    now rewrite Hparse.
  - intros os target targets status_codes elapsed err Hos Hin.
    unfold answer, run. rewrite run_httpx_eq.
    unfold httpx_outcome. rewrite Hos.
    apply Nat.ltb_ge in Hin. rewrite Hin. simpl.
    now rewrite Hparse.
Qed.

Lemma parse_aborts_on_other_exception_witness :
  answer (run_subfinder PyRef.dumps Limited.loads PyRef.str_exc
            Limited.prints "example.com" false)
  = Returns (PyRef.dumps None (JDict [
      ("success", JBool false);
      ("error", JStr "maximum recursion depth exceeded")]))
  /\ answer (run_httpx PyRef.dumps Limited.loads PyRef.str_exc
               Limited.prints ["https://example.com"] None)
     = Returns (PyRef.dumps (Some 2) (JDict [
         ("success", JBool false);
         ("error", JStr "Unexpected error: maximum recursion depth exceeded")])).
Proof.
  assert (Hlines : output_lines Limited.stdout
                   = [Sample.line1] ++ Limited.deep :: [Sample.line2])
    by reflexivity.
  assert (Hpre : Forall (tolerated Limited.loads) [Sample.line1]).
  { constructor; [|constructor]. intros _. exact I. }
  destruct (parse_aborts_on_other_exception
              PyRef.dumps Limited.loads PyRef.str_exc
              Limited.stdout [Sample.line1] [Sample.line2] Limited.deep
              "maximum recursion depth exceeded"
              Hlines Hpre eq_refl eq_refl) as [Hsub Hprobe].
  split.
  - apply (Hsub Limited.prints "example.com" false 2 EmptyString).
    reflexivity.
  - apply (Hprobe Limited.prints "https://example.com" [] None 2 EmptyString).
    + reflexivity.
    + unfold httpx_timeout. simpl. lia.
Defined.

(** ** White space around the output *)

Section StripFacts.

(** A one-byte white space character is below 128, so it never is the
    second or the third byte of a wider one. *)
Lemma is_space_low (w : ascii) :
  is_space w = true -> (nat_of_ascii w <= 32)%nat.
Proof.
  unfold is_space. intros H.
  apply orb_true_iff in H. destruct H as [H|H];
    apply andb_true_iff in H; destruct H as [_ H];
    apply Nat.leb_le in H; lia.
Qed.

Lemma is_space2_second (c w : ascii) :
  is_space w = true -> is_space2 c w = false.
Proof.
  intros H. apply is_space_low in H. unfold is_space2.
  destruct (nat_of_ascii c =? 194)%nat; [|reflexivity]. simpl.
  apply orb_false_iff. split; apply Nat.eqb_neq; lia.
Qed.

Lemma is_space3_third (c1 c2 w : ascii) :
  is_space w = true -> is_space3 c1 c2 w = false.
Proof.
  intros H. apply is_space_low in H. unfold is_space3.
  assert (H128 : (nat_of_ascii w =? 128)%nat = false)
    by (apply Nat.eqb_neq; lia).
  assert (H159 : (nat_of_ascii w =? 159)%nat = false)
    by (apply Nat.eqb_neq; lia).
  assert (H168 : (nat_of_ascii w =? 168)%nat = false)
    by (apply Nat.eqb_neq; lia).
  assert (H169 : (nat_of_ascii w =? 169)%nat = false)
    by (apply Nat.eqb_neq; lia).
  assert (H175 : (nat_of_ascii w =? 175)%nat = false)
    by (apply Nat.eqb_neq; lia).
  assert (Hge : (128 <=? nat_of_ascii w)%nat = false)
    by (apply Nat.leb_gt; lia).
  rewrite H128, H159, H168, H169, H175, Hge. simpl.
  now rewrite !andb_false_r.
Qed.

Lemma is_space3_second (c1 w c3 : ascii) :
  is_space w = true -> is_space3 c1 w c3 = false.
Proof.
  intros H. apply is_space_low in H. unfold is_space3.
  assert (H154 : (nat_of_ascii w =? 154)%nat = false)
    by (apply Nat.eqb_neq; lia).
  assert (H128 : (nat_of_ascii w =? 128)%nat = false)
    by (apply Nat.eqb_neq; lia).
  assert (H129 : (nat_of_ascii w =? 129)%nat = false)
    by (apply Nat.eqb_neq; lia).
  rewrite H154, H128, H129. now rewrite !andb_false_r.
Qed.

Lemma lstrip_all_space (s : string) : all_space s -> lstrip s = EmptyString.
Proof.
  unfold all_space. induction s as [|c s IH]; simpl; intros H.
  - reflexivity.
  - inversion H as [|? ? Hc Hs]; subst. rewrite Hc. now apply IH.
Qed.

Lemma lstrip_app_space (ws s : string) :
  all_space ws -> lstrip (ws ++ s)%string = lstrip s.
Proof.
  unfold all_space. induction ws as [|c ws IH]; simpl; intros H.
  - reflexivity.
  - inversion H as [|? ? Hc Hs]; subst. rewrite Hc. now apply IH.
Qed.

(** One-byte white space after a text is left by [lstrip] where it is,
    unless the text itself is white space only. *)
Lemma lstrip_before_space (ws : string) :
  all_space ws ->
  forall n s,
    (String.length s <= n)%nat ->
    lstrip (s ++ ws)%string
    = match lstrip s with
      | EmptyString => EmptyString
      | r => (r ++ ws)%string
      end.
Proof.
  intros Hws. induction n as [|n IH]; intros s Hlen.
  - destruct s; [|simpl in Hlen; lia]. simpl.
    now apply lstrip_all_space.
  - destruct s as [|c1 r1]; [simpl; now apply lstrip_all_space|].
    simpl in Hlen.
    change (String c1 r1 ++ ws)%string with (String c1 (r1 ++ ws)%string).
    cbn [lstrip].
    destruct (is_space c1) eqn:H1; [apply IH; lia|].
    destruct r1 as [|c2 r2].
    + (* the text is one byte *)
      cbn [append].
      destruct ws as [|w1 ws1]; [reflexivity|].
      unfold all_space in Hws. simpl in Hws.
      inversion Hws as [|? ? Hw1 Hws1]; subst.
      rewrite (is_space2_second c1 w1 Hw1).
      destruct ws1 as [|w2 ws2]; [reflexivity|].
      now rewrite (is_space3_second c1 w1 w2 Hw1).
    + simpl in Hlen.
      change (String c2 r2 ++ ws)%string with (String c2 (r2 ++ ws)%string).
      cbn iota.
      destruct (is_space2 c1 c2) eqn:H2; [apply IH; lia|].
      destruct r2 as [|c3 r3].
      * (* the text is two bytes *)
        cbn [append].
        destruct ws as [|w1 ws1]; [reflexivity|].
        unfold all_space in Hws. simpl in Hws.
        inversion Hws as [|? ? Hw1 Hws1]; subst.
        now rewrite (is_space3_third c1 c2 w1 Hw1).
      * simpl in Hlen.
        change (String c3 r3 ++ ws)%string with (String c3 (r3 ++ ws)%string).
        cbn iota.
        destruct (is_space3 c1 c2 c3) eqn:H3; [apply IH; lia|].
        reflexivity.
Qed.

Lemma lstrip_app_ascii (s ws : string) :
  all_space ws ->
  lstrip (s ++ ws)%string
  = match lstrip s with
    | EmptyString => EmptyString
    | r => (r ++ ws)%string
    end.
Proof.
  intros Hws. now apply (lstrip_before_space ws Hws (String.length s)).
Qed.

Lemma rstrip_all_space (ws : string) :
  all_space ws -> rstrip ws = EmptyString.
Proof.
  intros Hws. destruct ws as [|w ws]; [reflexivity|].
  cbn [rstrip]. now rewrite lstrip_all_space.
Qed.

Lemma rstrip_app_space (s ws : string) :
  all_space ws -> rstrip (s ++ ws)%string = rstrip s.
Proof.
  intros Hws. induction s as [|c s IH].
  - simpl. now apply rstrip_all_space.
  - change (String c s ++ ws)%string with (String c (s ++ ws)%string).
    cbn [rstrip].
    change (String c (s ++ ws)%string) with (String c s ++ ws)%string.
    rewrite lstrip_app_ascii by assumption. rewrite IH.
    destruct (lstrip (String c s)); reflexivity.
Qed.

Lemma strip_surrounded (ws1 s ws2 : string) :
  all_space ws1 -> all_space ws2 ->
  strip (ws1 ++ s ++ ws2)%string = strip s.
Proof.
  intros H1 H2. unfold strip. rewrite lstrip_app_space by assumption.
  rewrite lstrip_app_ascii by assumption.
  destruct (lstrip s) as [|c r] eqn:Hs; [reflexivity|].
  now apply rstrip_app_space.
Qed.

End StripFacts.

(** White space before and after the whole output, such as the final
    newline or empty lines at either end, changes nothing: the lines read,
    and so the envelopes of the subdomain enumerator and of the HTTP probe,
    are those of the bare output. *)
Theorem surrounding_space_is_ignored
        (json_dumps : option nat -> json -> string)
        (json_loads : string -> json + exn)
        (str_exc : exn -> string)
        (ws1 out ws2 : string) :
  all_space ws1 -> all_space ws2 ->
  output_lines (ws1 ++ out ++ ws2)%string = output_lines out
  /\ (forall os os' domain recursive elapsed elapsed' err,
        os (mkSpec (subfinder_cmd domain recursive) None None)
        = Exits elapsed 0 (ws1 ++ out ++ ws2)%string err ->
        os' (mkSpec (subfinder_cmd domain recursive) None None)
        = Exits elapsed' 0 out err ->
        answer (run_subfinder json_dumps json_loads str_exc os domain recursive)
        = answer (run_subfinder json_dumps json_loads str_exc os'
                                domain recursive))
  /\ (forall os os' target targets status_codes elapsed elapsed' err,
        os (httpx_spec (target :: targets) status_codes)
        = Exits elapsed 0 (ws1 ++ out ++ ws2)%string err ->
        os' (httpx_spec (target :: targets) status_codes)
        = Exits elapsed' 0 out err ->
        elapsed <= httpx_timeout (target :: targets) ->
        elapsed' <= httpx_timeout (target :: targets) ->
        answer (run_httpx json_dumps json_loads str_exc os
                          (target :: targets) status_codes)
        = answer (run_httpx json_dumps json_loads str_exc os'
                            (target :: targets) status_codes)).
Proof.
  intros H1 H2.
  assert (Hlines : output_lines (ws1 ++ out ++ ws2)%string = output_lines out).
  { unfold output_lines. now rewrite strip_surrounded. }
  assert (Hparse : parse_outcome json_loads (ws1 ++ out ++ ws2)%string
                   = parse_outcome json_loads out).
  { unfold parse_outcome. now rewrite Hlines. }
  split; [exact Hlines|]. split.
  - intros os os' domain recursive elapsed elapsed' err Hos Hos'.
    unfold answer, run. rewrite !run_subfinder_eq.
    unfold subfinder_outcome, unbounded_outcome. rewrite Hos, Hos'. simpl.
    now rewrite Hparse.
  - intros os os' target targets status_codes elapsed elapsed' err
           Hos Hos' Hin Hin'.
    unfold answer, run. rewrite !run_httpx_eq.
    unfold httpx_outcome. rewrite Hos, Hos'.
    apply Nat.ltb_ge in Hin, Hin'. rewrite Hin, Hin'. simpl.
    now rewrite Hparse.
Qed.

(** An output made of white space only, the empty output among them, is a
    success with an empty list and a count of zero. *)
Theorem blank_output_is_empty_success
        (json_dumps : option nat -> json -> string)
        (json_loads : string -> json + exn)
        (str_exc : exn -> string)
        (out : string) :
  all_space out ->
  (forall os domain recursive elapsed err,
      os (mkSpec (subfinder_cmd domain recursive) None None)
      = Exits elapsed 0 out err ->
      answer (run_subfinder json_dumps json_loads str_exc os domain recursive)
      = Returns (json_dumps (Some 2) (JDict [
          ("success", JBool true);
          ("domain", JStr domain);
          ("recursive", JBool recursive);
          ("subdomains", JList []);
          ("count", JInt 0)])))
  /\ (forall os target targets status_codes elapsed err,
        os (httpx_spec (target :: targets) status_codes)
        = Exits elapsed 0 out err ->
        elapsed <= httpx_timeout (target :: targets) ->
        answer (run_httpx json_dumps json_loads str_exc os
                          (target :: targets) status_codes)
        = Returns (json_dumps (Some 2) (JDict [
            ("success", JBool true);
            ("targets", JStrs (target :: targets));
            ("results", JList []);
            ("count", JInt 0)]))).
Proof.
  intros Hblank.
  assert (Hparse : parse_outcome json_loads out = Returns []).
  { unfold parse_outcome, output_lines, strip.
    rewrite lstrip_all_space by assumption. reflexivity. }
  split.
  - intros os domain recursive elapsed err Hos.
    unfold answer, run. rewrite run_subfinder_eq.
    unfold subfinder_outcome, unbounded_outcome. rewrite Hos. simpl.
    now rewrite Hparse.
  - intros os target targets status_codes elapsed err Hos Hin.
    unfold answer, run. rewrite run_httpx_eq.
    unfold httpx_outcome. rewrite Hos.
    apply Nat.ltb_ge in Hin. rewrite Hin. simpl.
    now rewrite Hparse.
Qed.

Lemma surrounding_space_is_ignored_witness :
  output_lines (nl ++ " " ++ (Sample.line1 ++ nl ++ Sample.line2) ++ nl ++ nl)%string
  = output_lines (Sample.line1 ++ nl ++ Sample.line2)%string.
Proof.
  assert (H1 : all_space (nl ++ " ")%string)
    by (unfold all_space; simpl; repeat constructor).
  assert (H2 : all_space (nl ++ nl)%string)
    by (unfold all_space; simpl; repeat constructor).
  destruct (surrounding_space_is_ignored PyRef.dumps PyRef.loads PyRef.str_exc
              (nl ++ " ")%string (Sample.line1 ++ nl ++ Sample.line2)%string
              (nl ++ nl)%string H1 H2) as [Hlines _].
  exact Hlines.
Defined.

Lemma blank_output_is_empty_success_witness :
  answer (run_subfinder PyRef.dumps PyRef.loads PyRef.str_exc
            (fun _ => Exits 1 0 (" " ++ nl) EmptyString) "example.com" true)
  = Returns (PyRef.dumps (Some 2) (JDict [
      ("success", JBool true);
      ("domain", JStr "example.com");
      ("recursive", JBool true);
      ("subdomains", JList []);
      ("count", JInt 0)])).
Proof.
  assert (Hblank : all_space (" " ++ nl)%string)
    by (unfold all_space; simpl; repeat constructor).
  destruct (blank_output_is_empty_success PyRef.dumps PyRef.loads PyRef.str_exc
              (" " ++ nl)%string Hblank) as [Hsub _].
  apply (Hsub (fun _ => Exits 1 0 (" " ++ nl) EmptyString)
              "example.com" true 1 EmptyString).
  reflexivity.
Defined.







(** ** Edges of the command construction *)

(** A risk or level of 0 is left out of the sqlmap command as if it were
    absent, any other number, in or out of the documented range, is passed
    as written in decimal; the envelope of a successful run still reports
    the 0 it was given. *)
Theorem sqlmap_zero_is_dropped
        (json_dumps : option nat -> json -> string)
        (str_exc : exn -> string)
        (os : ProcessSpec -> behaviour)
        (url : string) :
  (forall level, sqlmap_cmd url (Some 0%Z) level = sqlmap_cmd url None level)
  /\ (forall risk, sqlmap_cmd url risk (Some 0%Z) = sqlmap_cmd url risk None)
  /\ (forall r l, r <> 0%Z -> l <> 0%Z ->
        sqlmap_cmd url (Some r) (Some l)
        = ["sqlmap"; "-u"; url; "--batch"; "--output-dir=/tmp/sqlmap";
           "--risk"; str_Z r; "--level"; str_Z l])
  /\ (forall level elapsed out err,
        os (mkSpec (sqlmap_cmd url None level) None None)
        = Exits elapsed 0 out err ->
        launched (run_sqlmap json_dumps str_exc os url (Some 0%Z) level)
        = launched (run_sqlmap json_dumps str_exc os url None level)
        /\ exists env,
            answer (run_sqlmap json_dumps str_exc os url (Some 0%Z) level)
            = Returns (json_dumps None env)
            /\ field "success" env = Some (JBool true)
            /\ field "risk" env = Some (JInt 0)).
Proof.
  split; [reflexivity|].
  split; [intros [r|]; reflexivity|].
  split.
  - intros r l Hr Hl. unfold sqlmap_cmd.
    apply Z.eqb_neq in Hr, Hl. now rewrite Hr, Hl.
  - intros level elapsed out err Hos. split.
    + unfold launched, run. now rewrite !run_sqlmap_eq.
    + exists (sqlmap_envelope url (Some 0%Z) level (mkCompleted 0 out err)).
      unfold answer, run. rewrite run_sqlmap_eq. unfold unbounded_outcome.
      change (sqlmap_cmd url (Some 0%Z) level) with (sqlmap_cmd url None level).
      rewrite Hos. repeat split.
Qed.

Lemma sqlmap_zero_is_dropped_witness :
  sqlmap_cmd "http://example.com/?id=1" (Some 3%Z) (Some 7%Z)
  = ["sqlmap"; "-u"; "http://example.com/?id=1"; "--batch";
     "--output-dir=/tmp/sqlmap"; "--risk"; "3"; "--level"; "7"].
Proof.
  destruct (sqlmap_zero_is_dropped PyRef.dumps PyRef.str_exc Sample.silent
              "http://example.com/?id=1") as (_ & _ & Hboth & _).
  apply (Hboth 3%Z 7%Z); discriminate.
Defined.

(** An empty ports or scan_type string is left out of the nmap command as
    if it were absent; a non-empty scan_type becomes one argument, a dash
    followed by the string as given, after the ports. The envelope of a
    successful run reports the empty string it was given, not null. *)
Theorem nmap_empty_option_is_dropped
        (json_dumps : option nat -> json -> string)
        (str_exc : exn -> string)
        (os : ProcessSpec -> behaviour)
        (target : string) :
  (forall scan_type,
      nmap_cmd target (Some EmptyString) scan_type
      = nmap_cmd target None scan_type)
  /\ (forall ports,
        nmap_cmd target ports (Some EmptyString) = nmap_cmd target ports None)
  /\ (forall p s, p <> EmptyString -> s <> EmptyString ->
        nmap_cmd target (Some p) (Some s)
        = ["nmap"; "-oX"; "-"; target; "-p"; p; ("-" ++ s)%string])
  /\ (forall scan_type elapsed out err,
        os (mkSpec (nmap_cmd target None scan_type) None None)
        = Exits elapsed 0 out err ->
        launched (run_nmap json_dumps str_exc os target
                           (Some EmptyString) scan_type)
        = launched (run_nmap json_dumps str_exc os target None scan_type)
        /\ exists env,
            answer (run_nmap json_dumps str_exc os target
                             (Some EmptyString) scan_type)
            = Returns (json_dumps None env)
            /\ field "success" env = Some (JBool true)
            /\ field "ports" env = Some (JStr EmptyString)).
Proof.
  split; [reflexivity|].
  split; [intros [p|]; [destruct (truthy p)|]; reflexivity|].
  split.
  - intros p s Hp Hs. unfold nmap_cmd.
    destruct p; [now elim Hp|]. destruct s; [now elim Hs|]. reflexivity.
  - intros scan_type elapsed out err Hos. split.
    + unfold launched, run. now rewrite !run_nmap_eq.
    + exists (nmap_envelope target (Some EmptyString) scan_type
                            (mkCompleted 0 out err)).
      unfold answer, run. rewrite run_nmap_eq. unfold unbounded_outcome.
      change (nmap_cmd target (Some EmptyString) scan_type)
        with (nmap_cmd target None scan_type).
      rewrite Hos. repeat split.
Qed.

Lemma nmap_empty_option_is_dropped_witness :
  nmap_cmd "10.0.0.0/24" (Some "22,80,443") (Some "sS -Pn")
  = ["nmap"; "-oX"; "-"; "10.0.0.0/24"; "-p"; "22,80,443"; "-sS -Pn"].
Proof.
  destruct (nmap_empty_option_is_dropped PyRef.dumps PyRef.str_exc
              Sample.silent "10.0.0.0/24") as (_ & _ & Hboth & _).
  apply (Hboth "22,80,443" "sS -Pn"); discriminate.
Defined.

(** ** The status-code filter of the HTTP probe *)

Section DecimalFacts.

Lemma uint_string_no_comma (d : Decimal.uint) :
  ~ In ","%char (list_ascii_of_string (NilEmpty.string_of_uint d)).
Proof.
  induction d; simpl; intros H;
    try (destruct H as [H|H]; [discriminate H | now apply IHd]).
  exact H.
Qed.

Lemma str_Z_no_comma (z : Z) :
  ~ In ","%char (list_ascii_of_string (str_Z z)).
Proof.
  unfold str_Z, NilZero.string_of_int, NilZero.string_of_uint.
  destruct (Z.to_int z) as [d|d]; destruct d; simpl; intros H;
    repeat (destruct H as [H|H]; [discriminate H|]);
    try contradiction; now apply uint_string_no_comma in H.
Qed.

(** Reading back what [str] wrote. *)
Lemma read_str_Z (z : Z) : read_int (str_Z z) = Some z.
Proof.
  unfold read_int, str_Z. rewrite NilZero.isi.
  - simpl. now rewrite DecimalZ.of_to.
  - destruct z; simpl; try discriminate.
    intros [= H]. now apply DecimalPos.Unsigned.to_uint_nonnil in H.
  - destruct z; simpl; try discriminate.
    intros [= H]. now apply DecimalPos.Unsigned.to_uint_nonnil in H.
Qed.

Lemma split_join_sep (sep : ascii) (l : list string) :
  l <> [] ->
  Forall (fun t => ~ In sep (list_ascii_of_string t)) l ->
  split sep (join (String sep EmptyString) l) = l.
Proof.
  induction l as [|t rest IH]; intros Hne Hall; [now elim Hne|].
  inversion Hall as [|? ? Ht Hrest]; subst.
  destruct rest as [|t' rest].
  - simpl. now apply split_one_line.
  - change (join (String sep EmptyString) (t :: t' :: rest))
      with (t ++ String sep (join (String sep EmptyString) (t' :: rest)))%string.
    rewrite split_app_sep by exact Ht.
    f_equal. apply IH; [discriminate | exact Hrest].
Qed.

End DecimalFacts.

(** The status codes reach httpx intact: when the filter holds at least one
    number, the command carries [-sc] and one argument which, cut at its
    commas and read as decimal integers, gives back the numbers of the
    filter in their order, its [None] entries left out. A filter that is
    empty or holds [None] entries only adds nothing to the command. *)
Theorem httpx_status_filter_round_trip
        (targets : list string) (status_codes : list (option Z)) :
  (not_none status_codes <> [] ->
   exists filter,
     httpx_status_args (Some status_codes) = ["-sc"; filter]
     /\ map read_int (split ","%char filter)
        = map Some (not_none status_codes))
  /\ (not_none status_codes = [] ->
      httpx_cmd targets (Some status_codes) = httpx_cmd targets None).
Proof.
  split.
  - intros Hne.
    exists (join "," (map str_Z (not_none status_codes))). split.
    + unfold httpx_status_args.
      destruct status_codes as [|sc scs]; [now elim Hne|].
      destruct (not_none (sc :: scs)); [now elim Hne | reflexivity].
    + rewrite (split_join_sep ","%char).
      * rewrite map_map. apply map_ext. exact read_str_Z.
      * destruct (not_none status_codes); [now elim Hne | discriminate].
      * apply Forall_forall. intros t Hin.
        apply in_map_iff in Hin. destruct Hin as (z & <- & _).
        apply str_Z_no_comma.
  - intros Hnone. unfold httpx_cmd, httpx_status_args.
    destruct status_codes as [|sc scs]; [reflexivity|].
    now rewrite Hnone.
Qed.

Lemma httpx_status_filter_round_trip_witness :
  exists filter,
    httpx_status_args (Some [Some 200%Z; None; Some 301%Z; Some 404%Z])
    = ["-sc"; filter]
    /\ map read_int (split ","%char filter)
       = [Some 200%Z; Some 301%Z; Some 404%Z].
Proof.
  destruct (httpx_status_filter_round_trip ["https://example.com"]
              [Some 200%Z; None; Some 301%Z; Some 404%Z]) as [Hsome _].
  apply Hsome. discriminate.
Defined.

(** ** What is started, and what is written to it *)

(** Whatever the arguments, the program an operation starts is the one of
    its tool, as the first word of the argument vector; and nothing is
    written to the standard input of the process except by the HTTP probe
    called with two targets or more. *)
Theorem launched_program_and_stdin
        (json_dumps : option nat -> json -> string)
        (json_loads : string -> json + exn)
        (str_exc : exn -> string)
        (os : ProcessSpec -> behaviour)
        (c : call) (spec : ProcessSpec) :
  In spec (launched (dispatch json_dumps json_loads str_exc os c)) ->
  (exists rest, args spec = binary c :: rest)
  /\ (input spec <> None <->
      exists u1 u2 rest status_codes,
        c = httpx_wrapper (u1 :: u2 :: rest) status_codes).
Proof.
  rewrite launched_dispatch. unfold launches.
  destruct c as [target ports scan_type|url risk level|url crawl
                |hash_file wordlist hash_type|domain recursive
                |urls status_codes]; simpl;
    try (intros [<-|[]]; split;
         [ simpl; eexists; reflexivity
         | split; [intros H; now elim H | intros (? & ? & ? & ? & [=])] ]).
  - unfold nmap_cmd.
    destruct ports as [p|]; [destruct (truthy p)|];
      (destruct scan_type as [s|]; [destruct (truthy s)|]);
      intros [<-|[]]; (split;
         [ simpl; eexists; reflexivity
         | split; [intros H; now elim H | intros (? & ? & ? & ? & [=])] ]).
  - unfold sqlmap_cmd.
    destruct risk as [r|]; [destruct (r =? 0)%Z|];
      (destruct level as [l|]; [destruct (l =? 0)%Z|]);
      intros [<-|[]]; (split;
         [ simpl; eexists; reflexivity
         | split; [intros H; now elim H | intros (? & ? & ? & ? & [=])] ]).
  - destruct crawl; intros [<-|[]]; (split;
         [ simpl; eexists; reflexivity
         | split; [intros H; now elim H | intros (? & ? & ? & ? & [=])] ]).
  - destruct recursive; intros [<-|[]]; (split;
         [ simpl; eexists; reflexivity
         | split; [intros H; now elim H | intros (? & ? & ? & ? & [=])] ]).
  - destruct urls as [|u1 [|u2 rest]]; simpl.
    + intros [].
    + intros [<-|[]]. split; [simpl; eexists; reflexivity|].
      split; [intros H; now elim H | intros (? & ? & ? & ? & [=])].
    + intros [<-|[]]. split; [simpl; eexists; reflexivity|].
      split; [intros _; now exists u1, u2, rest, status_codes
             | intros _; discriminate].
Qed.

Lemma launched_program_and_stdin_witness :
  exists rest,
    args (httpx_spec ["https://a.example.com"; "https://b.example.com"] None)
    = "httpx" :: rest.
Proof.
  apply (launched_program_and_stdin PyRef.dumps PyRef.loads PyRef.str_exc
           Sample.prints_records
           (httpx_wrapper ["https://a.example.com"; "https://b.example.com"]
                          None)).
  left. reflexivity.
Defined.

Lemma httpx_input_lines_witness :
  exists payload,
    httpx_input ["https://a.example.com"; "https://b.example.com";
                 "https://c.example.com"] = Some payload
    /\ split nl_char payload
       = ["https://a.example.com"; "https://b.example.com";
          "https://c.example.com"].
Proof.
  apply (httpx_input_lines "https://a.example.com" "https://b.example.com"
           ["https://c.example.com"]).
  repeat constructor; unfold one_line; simpl; intros H;
    repeat (destruct H as [H|H]; [discriminate H|]); exact H.
Defined.

(** ** More on the hash-type normalization *)

Section ModeFacts.

Lemma lower_char_decimal (c : ascii) :
  is_decimal c = true -> lower_char c = c.
Proof.
  unfold is_decimal, lower_char. intros H.
  apply andb_true_iff in H. destruct H as [_ H]. apply Nat.leb_le in H.
  destruct (65 <=? nat_of_ascii c)%nat eqn:Hup; [|reflexivity].
  apply Nat.leb_le in Hup. lia.
Qed.

Lemma lower_digits (s : string) : digits_only s -> lower s = s.
Proof.
  unfold digits_only. induction s as [|c s IH]; simpl; intros H.
  - reflexivity.
  - inversion H as [|? ? Hc Hs]; subst.
    now rewrite lower_char_decimal, IH.
Qed.

Lemma digits_unrecognized (s : string) : digits_only s -> ~ recognized s.
Proof.
  intros Hd (k & v & Hin & Hlow). rewrite lower_digits in Hlow by assumption.
  subst k. unfold hash_mode_map in Hin. simpl in Hin.
  unfold digits_only in Hd.
  repeat (destruct Hin as [Hin|Hin];
          [injection Hin as <- _; simpl in Hd;
           inversion Hd as [|? ? Hc _]; discriminate Hc|]).
  exact Hin.
Qed.

(** [d.get(k, default)] answers with a value of the dict or with the
    default. *)
Lemma dict_get_cases (d : list (string * string)) (k default : string) :
  (exists v, In (k, v) d /\ dict_get d k default = v)
  \/ dict_get d k default = default.
Proof.
  induction d as [|[k' v] d IH]; simpl.
  - now right.
  - destruct (String.eqb_spec k k') as [->|_].
    + left. exists v. split; [now left | reflexivity].
    + destruct IH as [(v' & Hin & Heq)|Heq].
      * left. exists v'. split; [now right | exact Heq].
      * now right.
Qed.

End ModeFacts.

(** A hash type written in decimal digits, that is a raw hashcat mode, is
    never rewritten. *)
Theorem hashcat_numeric_mode_unchanged (hash_type : string) :
  digits_only hash_type -> hashcat_mode hash_type = hash_type.
Proof.
  intros Hd. apply hashcat_mode_unrecognized. now apply digits_unrecognized.
Qed.

Lemma hashcat_numeric_mode_unchanged_witness :
  hashcat_mode "22000" = "22000".
Proof.
  apply hashcat_numeric_mode_unchanged.
  unfold digits_only. simpl. repeat constructor.
Defined.

(** Normalizing twice is normalizing once: the mode of a hash type is its
    own mode, so that a mode taken from an envelope can be given back as
    hash type. *)
Theorem hashcat_mode_idempotent (hash_type : string) :
  hashcat_mode (hashcat_mode hash_type) = hashcat_mode hash_type.
Proof.
  destruct (dict_get_cases hash_mode_map (lower hash_type) hash_type)
    as [(v & Hin & Hv)|Hsame];
    fold (hashcat_mode hash_type) in *.
  - rewrite Hv. apply hashcat_numeric_mode_unchanged.
    unfold hash_mode_map in Hin. simpl in Hin. unfold digits_only.
    repeat (destruct Hin as [Hin|Hin];
            [injection Hin as _ <-; simpl; repeat constructor|]).
    contradiction.
  - now rewrite Hsame.
Qed.

(** ** The raw output of the four unparsed adapters *)

(** When nmap, sqlmap, xsstrike or hashcat exits with status 0, the envelope
    is a success whose results hold the standard output as it was written,
    unparsed and untrimmed; what the tool wrote on standard error is not
    reported, and the cracked_hashes list of hashcat is always empty. *)
Theorem raw_output_is_verbatim
        (json_dumps : option nat -> json -> string)
        (json_loads : string -> json + exn)
        (str_exc : exn -> string)
        (os : ProcessSpec -> behaviour)
        (c : call) (member : string) (spec : ProcessSpec)
        (elapsed : nat) (out err : string) :
  raw_member c = Some member ->
  spec_of c = Some spec ->
  os spec = Exits elapsed 0 out err ->
  exists env results,
    answer (dispatch json_dumps json_loads str_exc os c)
    = Returns (json_dumps None env)
    /\ field "success" env = Some (JBool true)
    /\ field "results" env = Some results
    /\ field member results = Some (JStr out)
    /\ field "stderr" env = None
    /\ (forall hash_file wordlist hash_type,
          c = hashcat_wrapper hash_file wordlist hash_type ->
          field "cracked_hashes" results = Some (JList [])).
Proof.
  intros Hraw Hspec Hos. rewrite answer_dispatch.
  destruct c as [target ports scan_type|url risk level|url crawl
                |hash_file wordlist hash_type|domain recursive
                |urls status_codes]; try discriminate Hraw;
    injection Hraw as <-; simpl in Hspec; injection Hspec as <-;
    simpl; unfold unbounded_outcome; rewrite Hos; simpl;
    eexists; eexists;
    (split; [reflexivity|]);
    repeat (split; [reflexivity|]);
    intros ? ? ? Heq; try discriminate Heq; reflexivity.
Qed.

Lemma raw_output_is_verbatim_witness :
  exists env results,
    answer (dispatch PyRef.dumps PyRef.loads PyRef.str_exc
              (fun _ => Exits 4 0 "  <nmaprun/>  " "Warning: host seems down")
              (nmap_wrapper "10.0.0.1" None (Some "sV")))
    = Returns (PyRef.dumps None env)
    /\ field "success" env = Some (JBool true)
    /\ field "results" env = Some results
    /\ field "xml_output" results = Some (JStr "  <nmaprun/>  ")
    /\ field "stderr" env = None
    /\ (forall hash_file wordlist hash_type,
          nmap_wrapper "10.0.0.1" None (Some "sV")
          = hashcat_wrapper hash_file wordlist hash_type ->
          field "cracked_hashes" results = Some (JList [])).
Proof.
  apply (raw_output_is_verbatim PyRef.dumps PyRef.loads PyRef.str_exc
           (fun _ => Exits 4 0 "  <nmaprun/>  " "Warning: host seems down")
           (nmap_wrapper "10.0.0.1" None (Some "sV")) "xml_output"
           (mkSpec ["nmap"; "-oX"; "-"; "10.0.0.1"; "-sV"] None None)
           4 "  <nmaprun/>  " "Warning: host seems down");
    reflexivity.
Defined.


(** ** The members of an envelope *)

Ltac distinct_keys :=
  simpl;
  repeat (constructor;
          [ let H := fresh "H" in
            simpl; intros H;
            repeat (destruct H as [H|H]; [discriminate H|]); exact H
          | ]);
  constructor.

Ltac well_keyed_now :=
  split; [eexists; eexists; reflexivity | distinct_keys].

Section Keys.

Variable json_dumps : option nat -> json -> string.
Variable json_loads : string -> json + exn.
Variable str_exc : exn -> string.
Variable os : ProcessSpec -> behaviour.

Lemma well_keyed_plain_failure (e : exn) :
  well_keyed (plain_failure str_exc e).
Proof. destruct e; well_keyed_now. Qed.

Lemma well_keyed_httpx_failure (e : exn) :
  well_keyed (httpx_failure str_exc e).
Proof.
  destruct e; try well_keyed_now.
  unfold httpx_failure, httpx_called_process_error.
  destruct (is_wrong_binary _); [well_keyed_now|].
  destruct (is_not_found _); well_keyed_now.
Qed.

Lemma keyed_returns (indent : option nat) (env : json) :
  well_keyed env -> keyed json_dumps (Returns (json_dumps indent env)).
Proof. intros H. now exists indent, env. Qed.

Lemma keyed_unbounded (spec : ProcessSpec)
      (envelope : CompletedProcess -> json) :
  (forall r, well_keyed (envelope r)) ->
  keyed json_dumps
        (unbounded_outcome json_dumps str_exc os spec
           (fun r => Returns (json_dumps None (envelope r)))).
Proof.
  intros Henv. unfold unbounded_outcome.
  destruct (os spec) as [elapsed rc out err| |e]; try exact I.
  - destruct (rc =? 0)%Z; apply keyed_returns;
      [apply Henv | apply well_keyed_plain_failure].
  - apply keyed_returns, well_keyed_plain_failure.
Qed.

Lemma keyed_subfinder domain recursive :
  keyed json_dumps
        (subfinder_outcome json_dumps json_loads str_exc os domain recursive).
Proof.
  unfold subfinder_outcome, unbounded_outcome.
  destruct (os _) as [elapsed rc out err| |e]; try exact I.
  - destruct (rc =? 0)%Z.
    + cbv beta iota delta [stdout].
      destruct (parse_outcome json_loads out) as [l|e|]; try exact I;
        apply keyed_returns; [well_keyed_now | apply well_keyed_plain_failure].
    + apply keyed_returns, well_keyed_plain_failure.
  - apply keyed_returns, well_keyed_plain_failure.
Qed.

Lemma keyed_httpx urls status_codes :
  keyed json_dumps
        (httpx_outcome json_dumps json_loads str_exc os urls status_codes).
Proof.
  unfold httpx_outcome.
  destruct (os _) as [elapsed rc out err| |e].
  - destruct (httpx_timeout urls <? elapsed)%nat.
    { apply keyed_returns. well_keyed_now. }
    destruct (rc =? 0)%Z.
    + destruct (parse_outcome json_loads out) as [l|e|]; try exact I;
        apply keyed_returns; [well_keyed_now | apply well_keyed_httpx_failure].
    + apply keyed_returns, well_keyed_httpx_failure.
  - apply keyed_returns. well_keyed_now.
  - destruct e; apply keyed_returns;
      try apply well_keyed_httpx_failure.
    well_keyed_now.
Qed.

Lemma keyed_outcome (c : call) :
  keyed json_dumps (outcome_of json_dumps json_loads str_exc os c).
Proof.
  destruct c as [target ports scan_type|url risk level|url crawl
                |hash_file wordlist hash_type|domain recursive
                |urls status_codes]; simpl.
  - apply keyed_unbounded. intros r. well_keyed_now.
  - apply keyed_unbounded. intros r. well_keyed_now.
  - apply keyed_unbounded. intros r. well_keyed_now.
  - apply keyed_unbounded. intros r. well_keyed_now.
  - apply keyed_subfinder.
  - destruct urls as [|target targets].
    + apply keyed_returns. well_keyed_now.
    + apply keyed_httpx.
Qed.

End Keys.

(** Every text an operation returns is the text of a JSON object that
    starts with the boolean member success and in which no member name
    occurs twice, on the success path as on every failure path. *)
Theorem envelopes_are_well_keyed
        (json_dumps : option nat -> json -> string)
        (json_loads : string -> json + exn)
        (str_exc : exn -> string)
        (os : ProcessSpec -> behaviour)
        (c : call) (s : string) :
  answer (dispatch json_dumps json_loads str_exc os c) = Returns s ->
  exists indent b rest,
    s = json_dumps indent (JDict (("success", JBool b) :: rest))
    /\ NoDup ("success" :: map fst rest).
Proof.
  rewrite answer_dispatch. intros Hret.
  pose proof (keyed_outcome json_dumps json_loads str_exc os c) as Hk.
  rewrite Hret in Hk. simpl in Hk.
  destruct Hk as (indent & env & -> & (b & rest & ->) & Hnodup).
  now exists indent, b, rest.
Qed.

Lemma envelopes_are_well_keyed_witness :
  exists indent b rest,
    PyRef.dumps (Some 2)
      (httpx_envelope ["https://a.example.com"; "https://b.example.com"]
         [Sample.record1; Sample.record2])
    = PyRef.dumps indent (JDict (("success", JBool b) :: rest))
    /\ NoDup ("success" :: map fst rest).
Proof.
  apply (envelopes_are_well_keyed PyRef.dumps PyRef.loads PyRef.str_exc
           Sample.prints_records
           (httpx_wrapper ["https://a.example.com"; "https://b.example.com"]
                          None)).
  reflexivity.
Defined.

(** ** A malformed line between two records *)


